(** * EKS Anywhere: the create-cluster workflow and the clusterctl wrapper

    A shallow embedding of [pkg/workflows/create.go] and of
    [pkg/executables/clusterctl.go].  The collaborators of the workflow
    (provider, bootstrapper, cluster manager, addon manager, file writer)
    are Go interfaces; here they are records of functions that thread an
    abstract [World] (everything outside of the workflow: the kind cluster,
    vSphere, the file system).  The workflow itself runs in a small state
    monad over a [Machine]: the command context the tasks share by pointer,
    the world, and the trace of what the run did. *)

From Stdlib Require Import List String Bool Arith Lia Permutation.
Import ListNotations.
Open Scope string_scope.

(** ** Errors *)

(** A Go [error] value that is not nil.  [Errorf] stands for the errors
    built by [fmt.Errorf] and for the ones collaborators return;
    [ValidationError] is the aggregate of the validation runner, which
    carries the names of the validations that failed. *)
Inductive error : Type :=
| Errorf (msg : string)
| ValidationError (Errs : list string).

(** [err.Error()], as [%v] prints it; the text of the validation aggregate
    is produced by a package that is not part of the sources *)
Definition Error (ValidationError_Error : list string -> string) (err : error)
  : string :=
  match err with
  | Errorf msg => msg
  | ValidationError failed => ValidationError_Error failed
  end.

(** ** A state monad for the code that runs against the outside *)

Definition State (S A : Type) : Type := S -> A * S.

Definition ret {S A : Type} (a : A) : State S A := fun s => (a, s).

Definition bind {S A B : Type} (c : State S A) (k : A -> State S B)
  : State S B :=
  fun s => let (a, s') := c s in k a s'.

Declare Scope state_scope.
Delimit Scope state_scope with state.
Notation "x <- c ;; k" := (bind c (fun x => k))
  (at level 61, c at next level, right associativity) : state_scope.
Notation "c ;; k" := (bind c (fun _ => k))
  (at level 61, right associativity) : state_scope.

(** ** What the embedding takes from outside

    The types below are declared in packages of the repository (or of the
    Go library) that the two files only pass around. *)
Class Externals : Type := {
  World : Type;
  BootstrapClusterOption : Type;
  datacenter_config : Type;
  machine_config : Type;
  file_writer : Type;
  (* release/api/v1alpha1 *)
  image : Type;
  manifest : Type;
  Image_Image : image -> string;      (* Image.Image() *)
  Image_Tag : image -> string;        (* Image.Tag() *)
  path_Dir : string -> string;        (* path.Dir *)
  filepath_Join : list string -> string;
  (* datacenterConfig.PauseReconcile(): the object belongs to the provider *)
  DatacenterPauseReconcile :
    datacenter_config -> World -> datacenter_config * World
}.

(** ** pkg/types *)

Module types.
Section Types.
Context `{Externals}.

Record Cluster : Type := {
  Name : string;
  KubeconfigFile : string
}.

Record InfrastructureBundle : Type := {
  FolderName : string;
  Manifests : list manifest
}.

End Types.
End types.

(** ** release/api/v1alpha1: the fields of the versions bundle in use *)

Module v1alpha1.
Section Bundle.
Context `{Externals}.

(** the kubeadm bootstrap, core cluster-api, kubeadm control plane and the
    two etcdadm bundles have these fields in common *)
Record CapiBundle : Type := {
  Version : string;
  Components : manifest;
  Metadata : manifest;
  Controller : image;
  KubeProxy : image
}.

Record CertManagerBundle : Type := {
  Cainjector : image;
  CertManagerController : image;
  Webhook : image
}.

Record AwsBundle : Type := {
  AwsController : image;
  AwsKubeProxy : image
}.

Record VSphereBundle : Type := {
  ClusterAPIController : image;
  VSphereKubeProxy : image
}.

Record DockerBundle : Type := {
  DockerKubeProxy : image;
  Manager : image
}.

Record VersionsBundle : Type := {
  CertManager : CertManagerBundle;
  ClusterAPI : CapiBundle;
  Bootstrap : CapiBundle;
  ControlPlane : CapiBundle;
  Aws : AwsBundle;
  VSphere : VSphereBundle;
  Docker : DockerBundle;
  ExternalEtcdBootstrap : CapiBundle;
  ExternalEtcdController : CapiBundle
}.

End Bundle.
End v1alpha1.

(** ** pkg/cluster: the part of [cluster.Spec] the two files read *)

Module cluster.
Section Spec.
Context `{Externals}.

Record Spec : Type := {
  Name : string;
  ExternalEtcdConfiguration : bool;   (* Spec.ExternalEtcdConfiguration != nil *)
  VersionsBundle : v1alpha1.VersionsBundle;
  paused : bool                       (* set by PauseReconcile() *)
}.

(** Modelled from the spec: [PauseReconcile] is declared in a package
    that is not part of the sources; it marks the cluster object so that
    reconciliation (and with it the create webhook) is disabled. *)
Definition PauseReconcile (s : Spec) : Spec :=
  {| Name := Name s;
     ExternalEtcdConfiguration := ExternalEtcdConfiguration s;
     VersionsBundle := VersionsBundle s;
     paused := true |}.

(** a manifest once loaded, [*cluster.Manifest]: [m.Filename], [m.Content] *)
Record Manifest : Type := {
  Filename : string;
  Content : string
}.

End Spec.
End cluster.

(** ** pkg/validations *)

Module validations.
Section Runner.
Context `{Externals}.

(** [validations.ValidationResult], with the two fields
    [providerValidation] fills in *)
Record ValidationResult : Type := {
  Name : string;
  Err : option error
}.

(** [type Validation func() *ValidationResult]: a deferred check; running
    it may talk to the outside. *)
Definition Validation : Type := World -> ValidationResult * World.

Record Runner : Type := { registered : list Validation }.

(** Modelled from the spec: the validation runner ([NewRunner],
    [Register], [Run]) is not part of the sources.  "Executes every
    registered validation regardless of earlier failures (no
    short-circuit), collects all Results, and returns a single combined
    error naming every failed validation if at least one failed, or none
    if all passed." *)
Definition NewRunner : Runner := {| registered := [] |}.

(** Modelled from the spec: "register(validations...)" adds to the
    validations the runner holds; the method is not part of the sources. *)
Definition Register (r : Runner) (vs : list Validation) : Runner :=
  {| registered := registered r ++ vs |}.

(** Modelled from the spec: the loop of [Run], which is not part of the
    sources: "executes every registered validation regardless of earlier
    failures (no short-circuit), collects all Results".  The results are in
    the order the validations ran. *)
Fixpoint collect (vs : list Validation) (w : World)
  : list ValidationResult * World :=
  match vs with
  | [] => ([], w)
  | v :: vs' =>
      let (result, w1) := v w in
      let (results, w2) := collect vs' w1 in
      (result :: results, w2)
  end.

(** [result.Err != nil] *)
Definition has_failed (result : ValidationResult) : bool :=
  match Err result with Some _ => true | None => false end.

(** the names of the failed results, in the order they ran *)
Definition failedNames (results : list ValidationResult) : list string :=
  map Name (filter has_failed results).

(** Modelled from the spec: the value [Run] returns, which is not part of
    the sources: "a single combined error naming every failed validation if
    at least one failed, or none if all passed". *)
Definition aggregate (results : list ValidationResult) : option error :=
  match failedNames results with
  | [] => None
  | failed => Some (ValidationError failed)
  end.

(** Modelled from the spec: "run() -> error", not part of the sources.
    The results are returned next to the error for the statements below. *)
Definition Run (r : Runner) (w : World)
  : option error * list ValidationResult * World :=
  let (results, w') := collect (registered r) w in
  (aggregate results, results, w').

(** a validation whose result does not depend on the state of the outside:
    "validations are independent, order of execution does not affect
    outcome" *)
Definition independent (v : Validation) : Prop :=
  forall w w', fst (v w) = fst (v w').

(** the result of [v] when it runs in [w] *)
Definition resultIn (w : World) (v : Validation) : ValidationResult :=
  fst (v w).

(** [result] is what running [v] gave *)
Definition ran (v : Validation) (result : ValidationResult) : Prop :=
  exists w, fst (v w) = result.

End Runner.
End validations.

(** ** pkg/providers, pkg/workflows/interfaces: the collaborators *)

Module interfaces.
Section Collaborators.
Context `{Externals}.

(** A method that returns [error] gives [option error].  One that returns
    [(T, error)] gives [T + error]: the error when it is not nil (the tasks
    then drop the value), and the value otherwise; a cluster a collaborator
    returns without an error is a handle, not nil.  Cluster handles are
    passed as [option types.Cluster], a pointer that may be nil. *)
Record Provider : Type := {
  Name : string;
  BootstrapClusterOpts : World -> (list BootstrapClusterOption + error) * World;
  BootstrapSetup : cluster.Spec -> option types.Cluster -> World -> option error * World;
  SetupAndValidateCreateCluster : cluster.Spec -> World -> option error * World;
  DatacenterConfig : World -> datacenter_config * World;
  MachineConfigs : World -> list machine_config * World;
  Version : cluster.Spec -> string;
  EnvMap : World -> (list (string * string) + error) * World;
  GetInfrastructureBundle : cluster.Spec -> types.InfrastructureBundle
}.

Record Bootstrapper : Type := {
  CreateBootstrapCluster :
    cluster.Spec -> list BootstrapClusterOption -> World -> (types.Cluster + error) * World;
  DeleteBootstrapCluster : option types.Cluster -> bool -> World -> option error * World
}.

Record ClusterManager : Type := {
  InstallCapi : cluster.Spec -> option types.Cluster -> Provider -> World -> option error * World;
  CreateWorkloadCluster :
    option types.Cluster -> cluster.Spec -> Provider -> World -> (types.Cluster + error) * World;
  InstallNetworking : option types.Cluster -> cluster.Spec -> World -> option error * World;
  InstallStorageClass : option types.Cluster -> Provider -> World -> option error * World;
  InstallMachineHealthChecks :
    option types.Cluster -> Provider -> World -> option error * World;
  MoveCapi : option types.Cluster -> option types.Cluster -> World -> option error * World;
  InstallCustomComponents : cluster.Spec -> option types.Cluster -> World -> option error * World;
  CreateEKSAResources :
    option types.Cluster -> cluster.Spec -> datacenter_config -> list machine_config ->
    World -> option error * World;
  ResumeEKSAControllerReconcile :
    option types.Cluster -> cluster.Spec -> Provider -> World -> option error * World;
  SaveLogs : option types.Cluster -> World -> option error * World
}.

Record AddonManager : Type := {
  InstallGitOps :
    option types.Cluster -> cluster.Spec -> datacenter_config -> list machine_config ->
    World -> option error * World;
  Validations : cluster.Spec -> World -> list validations.Validation * World
}.

End Collaborators.
End interfaces.

(** ** pkg/clustermarshaller *)

(** [clustermarshaller.WriteClusterConfig], declared outside of the two
    files: it writes the resolved configuration through the writer. *)
Class Clustermarshaller `{Externals} : Type := {
  WriteClusterConfig :
    cluster.Spec -> datacenter_config -> list machine_config -> file_writer ->
    World -> option error * World
}.

(** ** pkg/task: the command context and the task runner *)

Module task.
Section Task.
Context `{Externals}.

(** [task.CommandContext] is declared in [pkg/task], which is not part of
    the sources; the fields are those [Create.Run] fills in and the tasks
    read and write.  A nil pointer is [None]. *)
Record CommandContext : Type := {
  Bootstrapper : interfaces.Bootstrapper;
  Provider : interfaces.Provider;
  ClusterManager : interfaces.ClusterManager;
  AddonManager : interfaces.AddonManager;
  ClusterSpec : cluster.Spec;
  Rollback : bool;
  Writer : file_writer;
  BootstrapCluster : option types.Cluster;
  WorkloadCluster : option types.Cluster;
  OriginalError : option error
}.

(** Modelled from the spec: [CommandContext.SetError] is declared in
    [pkg/task], which is not part of the sources.  "If no error is
    currently captured, stores it as the original cause and marks the run
    failed; if an error is already captured, the new error is observed but
    does not overwrite the original." *)
Definition SetError (err : error) (c : CommandContext) : CommandContext :=
  {| Bootstrapper := Bootstrapper c;
     Provider := Provider c;
     ClusterManager := ClusterManager c;
     AddonManager := AddonManager c;
     ClusterSpec := ClusterSpec c;
     Rollback := Rollback c;
     Writer := Writer c;
     BootstrapCluster := BootstrapCluster c;
     WorkloadCluster := WorkloadCluster c;
     OriginalError :=
       match OriginalError c with
       | None => Some err
       | Some original => Some original
       end |}.

(** the field assignments of the tasks *)
Definition withBootstrapCluster (b : option types.Cluster) (c : CommandContext)
  : CommandContext :=
  {| Bootstrapper := Bootstrapper c;
     Provider := Provider c;
     ClusterManager := ClusterManager c;
     AddonManager := AddonManager c;
     ClusterSpec := ClusterSpec c;
     Rollback := Rollback c;
     Writer := Writer c;
     BootstrapCluster := b;
     WorkloadCluster := WorkloadCluster c;
     OriginalError := OriginalError c |}.

Definition withWorkloadCluster (wl : option types.Cluster) (c : CommandContext)
  : CommandContext :=
  {| Bootstrapper := Bootstrapper c;
     Provider := Provider c;
     ClusterManager := ClusterManager c;
     AddonManager := AddonManager c;
     ClusterSpec := ClusterSpec c;
     Rollback := Rollback c;
     Writer := Writer c;
     BootstrapCluster := BootstrapCluster c;
     WorkloadCluster := wl;
     OriginalError := OriginalError c |}.

Definition withClusterSpec (s : cluster.Spec) (c : CommandContext)
  : CommandContext :=
  {| Bootstrapper := Bootstrapper c;
     Provider := Provider c;
     ClusterManager := ClusterManager c;
     AddonManager := AddonManager c;
     ClusterSpec := s;
     Rollback := Rollback c;
     Writer := Writer c;
     BootstrapCluster := BootstrapCluster c;
     WorkloadCluster := WorkloadCluster c;
     OriginalError := OriginalError c |}.


(** *** The trace of a run

    What a run does to the outside is kept as a list of events, oldest
    first: the collaborator calls with the cluster handles they were given
    and the error they returned, the validations that ran, the assignments
    to the two cluster handles, the errors handed to [SetError], and the
    lines the logger printed. *)
Inductive Call : Type :=
| BootstrapClusterOptsC
| CreateBootstrapClusterC
| InstallCapiC (target : option types.Cluster)
| BootstrapSetupC (target : option types.Cluster)
| DeleteBootstrapClusterC (target : option types.Cluster) (force : bool)
| CreateWorkloadClusterC (bootstrap : option types.Cluster)
| InstallNetworkingC (target : option types.Cluster)
| InstallStorageClassC (target : option types.Cluster)
| InstallMachineHealthChecksC (target : option types.Cluster)
| MoveCapiC (from to : option types.Cluster)
| InstallCustomComponentsC (target : option types.Cluster)
| CreateEKSAResourcesC (target : option types.Cluster)
| ResumeEKSAControllerReconcileC (target : option types.Cluster)
| InstallGitOpsC (target : option types.Cluster)
| WriteClusterConfigC
| SaveLogsC (target : option types.Cluster).

Inductive Event : Type :=
| Invoke (c : Call) (failure : option error)
| Validated (result : validations.ValidationResult)
| SetBootstrapCluster (b : types.Cluster)
| SetWorkloadCluster (wl : types.Cluster)
| Observed (err : error)
| Info (msg : string)
| MarkFail (msg : string) (err : error)
| MarkSuccess (msg : string).

Record Machine : Type := {
  ctx : CommandContext;
  world : World;
  trace : list Event
}.

Definition M (A : Type) : Type := State Machine A.

Definition getCtx : M CommandContext := fun m => (ctx m, m).

Definition modifyCtx (f : CommandContext -> CommandContext) : M unit :=
  fun m => (tt, {| ctx := f (ctx m); world := world m; trace := trace m |}).

Definition emit (e : Event) : M unit :=
  fun m => (tt, {| ctx := ctx m; world := world m; trace := trace m ++ [e] |}).

(** something done outside that leaves no event *)
Definition outside {A : Type} (f : World -> A * World) : M A :=
  fun m =>
    let (a, w') := f (world m) in
    (a, {| ctx := ctx m; world := w'; trace := trace m |}).

(** a collaborator call that returns [error] *)
Definition call (c : Call) (f : World -> option error * World)
  : M (option error) :=
  (err <- outside f ;; emit (Invoke c err) ;; ret err)%state.

Definition failure_of {A : Type} (r : A + error) : option error :=
  match r with inl _ => None | inr err => Some err end.

(** a collaborator call that returns [(T, error)] *)
Definition callV {A : Type} (c : Call) (f : World -> (A + error) * World)
  : M (A + error) :=
  (r <- outside f ;; emit (Invoke c (failure_of r)) ;; ret r)%state.

(** [commandContext.SetError(err)] *)
Definition setError (err : error) : M unit :=
  (modifyCtx (SetError err) ;; emit (Observed err))%state.

(** *** The task runner *)

(** [task.Task]: the interface of the stages of a workflow, with the two
    methods the tasks of [create.go] implement *)
Class Task (T : Type) : Type := {
  Run : T -> M (option T);
  Name : T -> string
}.

(** Modelled from the spec: the task runner ([NewTaskRunner], [RunTask])
    is declared in [pkg/task], which is not part of the sources.  "current
    = initialTask; while current is not terminal, next =
    current.run(context); current = next.  Returns the context's captured
    original error (or none) once the chain reaches a terminal Task."

    The loop of the engine has no bound of its own; [fuel] bounds the
    number of tasks the model runs, and the result is [None] when it does
    not suffice.  The tasks that ran are returned with the final state. *)
Fixpoint runChain {T : Type} `{Task T} (fuel : nat) (current : option T)
  (m : Machine) : option (list T * Machine) :=
  match current with
  | None => Some ([], m)
  | Some t =>
      match fuel with
      | O => None
      | S fuel' =>
          let (next, m') := Run t m in
          match runChain fuel' next m' with
          | Some (ts, m'') => Some (t :: ts, m'')
          | None => None
          end
      end
  end.

(** Modelled from the spec: [RunTask] of the task runner, not part of the
    sources: the loop above, and then "returns the context's captured
    original error (or none)". *)
Definition RunTask {T : Type} `{Task T} (fuel : nat) (initial : T)
  (m : Machine) : option (option error * list T * Machine) :=
  match runChain fuel (Some initial) m with
  | Some (ts, m') => Some (OriginalError (ctx m'), ts, m')
  | None => None
  end.

End Task.
End task.

(** ** pkg/workflows/create.go *)

Module workflows.
Section Create.
Context `{Externals} `{!Clustermarshaller}.
Import task.
Open Scope state_scope.

Record Create : Type := {
  bootstrapper : interfaces.Bootstrapper;
  provider : interfaces.Provider;
  clusterManager : interfaces.ClusterManager;
  addonManager : interfaces.AddonManager;
  writer : file_writer
}.

Definition NewCreate (bootstrapper : interfaces.Bootstrapper)
  (provider : interfaces.Provider) (clusterManager : interfaces.ClusterManager)
  (addonManager : interfaces.AddonManager) (writer : file_writer) : Create :=
  {| bootstrapper := bootstrapper;
     provider := provider;
     clusterManager := clusterManager;
     addonManager := addonManager;
     writer := writer |}.

(** Task related entities *)
Inductive CreateTask : Type :=
| CreateBootStrapClusterTask
| DeleteKindClusterTask
| SetAndValidateTask
| CreateWorkloadClusterTask
| InstallEksaComponentsTask
| InstallAddonManagerTask
| MoveClusterManagementTask
| WriteClusterConfigTask
| DeleteBootstrapClusterTask.

(** CreateBootStrapClusterTask implementation.  [BootstrapSetup] is given
    the cluster object of the spec; the model hands it the spec. *)
Definition CreateBootStrapClusterTask_Run : M (option CreateTask) :=
  emit (Info "Creating new bootstrap cluster") ;;
  commandContext <- getCtx ;;
  r <- callV BootstrapClusterOptsC
         (interfaces.BootstrapClusterOpts (Provider commandContext)) ;;
  match r with
  | inr err => setError err ;; ret None
  | inl bootstrapOptions =>
  r <- callV CreateBootstrapClusterC
         (interfaces.CreateBootstrapCluster (Bootstrapper commandContext)
            (ClusterSpec commandContext) bootstrapOptions) ;;
  match r with
  | inr err => setError err ;; ret (Some DeleteKindClusterTask)
  | inl bootstrapCluster =>
  modifyCtx (withBootstrapCluster (Some bootstrapCluster)) ;;
  emit (SetBootstrapCluster bootstrapCluster) ;;
  emit (Info "Installing cluster-api providers on bootstrap cluster") ;;
  err <- call (InstallCapiC (Some bootstrapCluster))
           (interfaces.InstallCapi (ClusterManager commandContext)
              (ClusterSpec commandContext) (Some bootstrapCluster)
              (Provider commandContext)) ;;
  match err with
  | Some err => setError err ;; ret (Some DeleteKindClusterTask)
  | None =>
  emit (Info "Provider specific setup") ;;
  err <- call (BootstrapSetupC (Some bootstrapCluster))
           (interfaces.BootstrapSetup (Provider commandContext)
              (ClusterSpec commandContext) (Some bootstrapCluster)) ;;
  match err with
  | Some err => setError err ;; ret (Some DeleteKindClusterTask)
  | None => ret (Some CreateWorkloadClusterTask)
  end end end end.

(** DeleteKindClusterTask implementation *)
Definition DeleteKindClusterTask_Run : M (option CreateTask) :=
  commandContext <- getCtx ;;
  match BootstrapCluster commandContext with
  | Some b =>
      err <- call (DeleteBootstrapClusterC (Some b) false)
               (interfaces.DeleteBootstrapCluster (Bootstrapper commandContext)
                  (Some b) false) ;;
      match err with
      | Some err => setError err ;; ret None
      | None => ret None
      end
  | None =>
      emit (Info "Bootstrap cluster information missing - skipping delete kind cluster") ;;
      ret None
  end.

(** SetAndValidateTask implementation *)
Definition providerValidation (commandContext : CommandContext)
  : list validations.Validation :=
  [ fun w =>
      let name := interfaces.Name (Provider commandContext)
                    ++ " Provider setup is valid" in
      let (err, w') :=
        interfaces.SetupAndValidateCreateCluster (Provider commandContext)
          (ClusterSpec commandContext) w in
      ({| validations.Name := name; validations.Err := err |}, w') ].

Definition SetAndValidateTask_Run : M (option CreateTask) :=
  emit (Info "Performing setup and validations") ;;
  commandContext <- getCtx ;;
  let runner := validations.NewRunner in
  let runner := validations.Register runner (providerValidation commandContext) in
  addonValidations <- outside (interfaces.Validations (AddonManager commandContext)
                                 (ClusterSpec commandContext)) ;;
  let runner := validations.Register runner addonValidations in
  err <- (fun m =>
            let '(err, results, w') := validations.Run runner (world m) in
            (err, {| ctx := ctx m; world := w';
                     trace := trace m ++ map Validated results |})) ;;
  match err with
  | Some err => setError err ;; ret None
  | None => ret (Some CreateBootStrapClusterTask)
  end.

(** CreateWorkloadClusterTask implementation *)
Definition CreateWorkloadClusterTask_Run : M (option CreateTask) :=
  emit (Info "Creating new workload cluster") ;;
  commandContext <- getCtx ;;
  r <- callV (CreateWorkloadClusterC (BootstrapCluster commandContext))
         (interfaces.CreateWorkloadCluster (ClusterManager commandContext)
            (BootstrapCluster commandContext) (ClusterSpec commandContext)
            (Provider commandContext)) ;;
  match r with
  | inr err => setError err ;; ret None
  | inl workloadCluster =>
  modifyCtx (withWorkloadCluster (Some workloadCluster)) ;;
  emit (SetWorkloadCluster workloadCluster) ;;
  emit (Info "Installing networking on workload cluster") ;;
  err <- call (InstallNetworkingC (Some workloadCluster))
           (interfaces.InstallNetworking (ClusterManager commandContext)
              (Some workloadCluster) (ClusterSpec commandContext)) ;;
  match err with
  | Some err => setError err ;; ret None
  | None =>
  emit (Info "Installing storage class on workload cluster") ;;
  err <- call (InstallStorageClassC (Some workloadCluster))
           (interfaces.InstallStorageClass (ClusterManager commandContext)
              (Some workloadCluster) (Provider commandContext)) ;;
  match err with
  | Some err => setError err ;; ret None
  | None =>
  emit (Info "Installing cluster-api providers on workload cluster") ;;
  commandContext <- getCtx ;;
  err <- call (InstallCapiC (WorkloadCluster commandContext))
           (interfaces.InstallCapi (ClusterManager commandContext)
              (ClusterSpec commandContext) (WorkloadCluster commandContext)
              (Provider commandContext)) ;;
  match err with
  | Some err => setError err ;; ret None
  | None =>
  emit (Info "Installing machine health checks on bootstrap cluster") ;;
  err <- call (InstallMachineHealthChecksC (BootstrapCluster commandContext))
           (interfaces.InstallMachineHealthChecks (ClusterManager commandContext)
              (BootstrapCluster commandContext) (Provider commandContext)) ;;
  match err with
  | Some err => setError err ;; ret None
  | None => ret (Some MoveClusterManagementTask)
  end end end end end.

(** MoveClusterManagementTask implementation *)
Definition MoveClusterManagementTask_Run : M (option CreateTask) :=
  emit (Info "Moving cluster management from bootstrap to workload cluster") ;;
  commandContext <- getCtx ;;
  err <- call (MoveCapiC (BootstrapCluster commandContext)
                 (WorkloadCluster commandContext))
           (interfaces.MoveCapi (ClusterManager commandContext)
              (BootstrapCluster commandContext) (WorkloadCluster commandContext)) ;;
  match err with
  | Some err => setError err ;; ret None
  | None => ret (Some InstallEksaComponentsTask)
  end.

(** InstallEksaComponentsTask implementation *)
Definition InstallEksaComponentsTask_Run : M (option CreateTask) :=
  emit (Info "Installing EKS-A custom components (CRD and controller) on workload cluster") ;;
  commandContext <- getCtx ;;
  err <- call (InstallCustomComponentsC (WorkloadCluster commandContext))
           (interfaces.InstallCustomComponents (ClusterManager commandContext)
              (ClusterSpec commandContext) (WorkloadCluster commandContext)) ;;
  match err with
  | Some err => setError err ;; ret None
  | None =>
  emit (Info "Creating EKS-A CRDs instances on workload cluster") ;;
  datacenterConfig <- outside (interfaces.DatacenterConfig (Provider commandContext)) ;;
  machineConfigs <- outside (interfaces.MachineConfigs (Provider commandContext)) ;;
  (* this disables create-webhook validation during create *)
  modifyCtx (withClusterSpec (cluster.PauseReconcile (ClusterSpec commandContext))) ;;
  datacenterConfig <- outside (DatacenterPauseReconcile datacenterConfig) ;;
  commandContext <- getCtx ;;
  err <- call (CreateEKSAResourcesC (WorkloadCluster commandContext))
           (interfaces.CreateEKSAResources (ClusterManager commandContext)
              (WorkloadCluster commandContext) (ClusterSpec commandContext)
              datacenterConfig machineConfigs) ;;
  match err with
  | Some err => setError err ;; ret None
  | None =>
  err <- call (ResumeEKSAControllerReconcileC (WorkloadCluster commandContext))
           (interfaces.ResumeEKSAControllerReconcile (ClusterManager commandContext)
              (WorkloadCluster commandContext) (ClusterSpec commandContext)
              (Provider commandContext)) ;;
  match err with
  | Some err => setError err ;; ret None
  | None => ret (Some InstallAddonManagerTask)
  end end end.

(** InstallAddonManagerTask implementation *)
Definition InstallAddonManagerTask_Run : M (option CreateTask) :=
  emit (Info "Installing AddonManager and GitOps Toolkit on workload cluster") ;;
  commandContext <- getCtx ;;
  datacenterConfig <- outside (interfaces.DatacenterConfig (Provider commandContext)) ;;
  machineConfigs <- outside (interfaces.MachineConfigs (Provider commandContext)) ;;
  err <- call (InstallGitOpsC (WorkloadCluster commandContext))
           (interfaces.InstallGitOps (AddonManager commandContext)
              (WorkloadCluster commandContext) (ClusterSpec commandContext)
              datacenterConfig machineConfigs) ;;
  match err with
  | Some err =>
      emit (MarkFail "Error when installing GitOps toolkits on workload cluster; EKS-A will continue with cluster creation, but GitOps will not be enabled" err) ;;
      ret (Some WriteClusterConfigTask)
  | None => ret (Some WriteClusterConfigTask)
  end.

Definition WriteClusterConfigTask_Run : M (option CreateTask) :=
  emit (Info "Writing cluster config file") ;;
  commandContext <- getCtx ;;
  datacenterConfig <- outside (interfaces.DatacenterConfig (Provider commandContext)) ;;
  machineConfigs <- outside (interfaces.MachineConfigs (Provider commandContext)) ;;
  err <- call WriteClusterConfigC
           (WriteClusterConfig (ClusterSpec commandContext) datacenterConfig
              machineConfigs (Writer commandContext)) ;;
  match err with
  | Some err => setError err
  | None => ret tt
  end ;;
  ret (Some DeleteBootstrapClusterTask).

(** DeleteBootstrapClusterTask implementation *)
Definition DeleteBootstrapClusterTask_Run : M (option CreateTask) :=
  emit (Info "Deleting bootstrap cluster") ;;
  commandContext <- getCtx ;;
  err <- call (DeleteBootstrapClusterC (BootstrapCluster commandContext) false)
           (interfaces.DeleteBootstrapCluster (Bootstrapper commandContext)
              (BootstrapCluster commandContext) false) ;;
  match err with
  | Some err => setError err
  | None => ret tt
  end ;;
  commandContext <- getCtx ;;
  match OriginalError commandContext with
  | None => emit (MarkSuccess "Cluster created!")
  | Some _ => ret tt
  end ;;
  ret None.

#[export] Instance CreateTask_Task : Task CreateTask := {
  Run t :=
    match t with
    | CreateBootStrapClusterTask => CreateBootStrapClusterTask_Run
    | DeleteKindClusterTask => DeleteKindClusterTask_Run
    | SetAndValidateTask => SetAndValidateTask_Run
    | CreateWorkloadClusterTask => CreateWorkloadClusterTask_Run
    | InstallEksaComponentsTask => InstallEksaComponentsTask_Run
    | InstallAddonManagerTask => InstallAddonManagerTask_Run
    | MoveClusterManagementTask => MoveClusterManagementTask_Run
    | WriteClusterConfigTask => WriteClusterConfigTask_Run
    | DeleteBootstrapClusterTask => DeleteBootstrapClusterTask_Run
    end;
  Name t :=
    match t with
    | CreateBootStrapClusterTask => "bootstrap-cluster-init"
    | DeleteKindClusterTask => "delete-kind-cluster"
    | SetAndValidateTask => "setup-validate"
    | CreateWorkloadClusterTask => "workload-cluster-init"
    | InstallEksaComponentsTask => "eksa-components-install"
    | InstallAddonManagerTask => "addon-manager-install"
    | MoveClusterManagementTask => "capi-management-move"
    | WriteClusterConfigTask => "write-cluster-config"
    | DeleteBootstrapClusterTask => "delete-kind-cluster"
    end
}.

(** what [Create.Run] leaves behind *)
Record Outcome : Type := {
  returned : option error;
  context : option CommandContext;   (* None: no context was constructed *)
  executed : list CreateTask;
  final_world : World;
  events : list Event
}.

(** the context [Create.Run] builds for the chain *)
Definition newCommandContext (c : Create) (clusterSpec : cluster.Spec)
  : CommandContext :=
  {| Bootstrapper := bootstrapper c;
     Provider := provider c;
     ClusterManager := clusterManager c;
     AddonManager := addonManager c;
     ClusterSpec := clusterSpec;
     Rollback := false;
     Writer := writer c;
     BootstrapCluster := None;
     WorkloadCluster := None;
     OriginalError := None |}.

(** the cluster [Create.Run] asks the bootstrapper to delete when
    [forceCleanup] is set: [&types.Cluster{Name: clusterSpec.Name}] *)
Definition staleBootstrapCluster (clusterSpec : cluster.Spec) : types.Cluster :=
  {| types.Name := cluster.Name clusterSpec; types.KubeconfigFile := "" |}.

Definition Create_Run (fuel : nat) (c : Create) (clusterSpec : cluster.Spec)
  (forceCleanup : bool) (w : World) : option Outcome :=
  let '(cleanupErr, w0, tr0) :=
    if forceCleanup then
      let stale := Some (staleBootstrapCluster clusterSpec) in
      let (err, w') :=
        interfaces.DeleteBootstrapCluster (bootstrapper c) stale false w in
      (err, w', [Invoke (DeleteBootstrapClusterC stale false) err])
    else (None, w, []) in
  match cleanupErr with
  | Some err =>
      Some {| returned := Some err; context := None; executed := [];
              final_world := w0; events := tr0 |}
  | None =>
      let commandContext := newCommandContext c clusterSpec in
      match RunTask fuel SetAndValidateTask
              {| ctx := commandContext; world := w0; trace := tr0 |} with
      | None => None
      | Some (err, ts, m) =>
          let m' :=
            match err with
            | Some _ =>
                snd (call (SaveLogsC (BootstrapCluster (ctx m)))
                       (interfaces.SaveLogs (ClusterManager (ctx m))
                          (BootstrapCluster (ctx m))) m)
            | None => m
            end in
          Some {| returned := err; context := Some (ctx m'); executed := ts;
                  final_world := world m'; events := trace m' |}
      end
  end.

(** *** Reading a trace *)

(** the errors handed to [SetError], in order *)
Fixpoint observed (tr : list Event) : list error :=
  match tr with
  | [] => []
  | Observed err :: tr' => err :: observed tr'
  | _ :: tr' => observed tr'
  end.

(** the bootstrap clusters the bootstrapper was asked to delete *)
Fixpoint deletions (tr : list Event) : list (option types.Cluster) :=
  match tr with
  | [] => []
  | Invoke (DeleteBootstrapClusterC target _) _ :: tr' => target :: deletions tr'
  | _ :: tr' => deletions tr'
  end.








(** the longest chain that can still run from a task *)
Definition remaining (t : CreateTask) : nat :=
  match t with
  | SetAndValidateTask => 8
  | CreateBootStrapClusterTask => 7
  | CreateWorkloadClusterTask => 6
  | MoveClusterManagementTask => 5
  | InstallEksaComponentsTask => 4
  | InstallAddonManagerTask => 3
  | WriteClusterConfigTask => 2
  | DeleteBootstrapClusterTask => 1
  | DeleteKindClusterTask => 1
  end.


(** what [InstallGitOps] returns when the addon stage runs in [m] *)
Definition installGitOpsOutcome (m : Machine) : option error :=
  let c := ctx m in
  let (datacenterConfig, w1) := interfaces.DatacenterConfig (Provider c) (world m) in
  let (machineConfigs, w2) := interfaces.MachineConfigs (Provider c) w1 in
  fst (interfaces.InstallGitOps (AddonManager c) (WorkloadCluster c)
         (ClusterSpec c) datacenterConfig machineConfigs w2).

(** what [WriteClusterConfig] returns when the write stage runs in [m] *)
Definition writeClusterConfigOutcome (m : Machine) : option error :=
  let c := ctx m in
  let (datacenterConfig, w1) := interfaces.DatacenterConfig (Provider c) (world m) in
  let (machineConfigs, w2) := interfaces.MachineConfigs (Provider c) w1 in
  fst (WriteClusterConfig (ClusterSpec c) datacenterConfig machineConfigs
         (Writer c) w2).

End Create.
End workflows.

(** ** pkg/executables/clusterctl.go *)

(** The operating system, the templater and the manifest reader, and the
    constants of [pkg/executables] and [pkg/constants] that are declared in
    other files. *)
Class System `{Externals} : Type := {
  Getwd : World -> (string + error) * World;
  MkdirAll : string -> World -> option error * World;
  WriteFile : string -> string -> World -> option error * World;
  WriteToFile :
    file_writer -> string -> list (string * string) -> string ->
    World -> (string + error) * World;
  LoadManifest :
    cluster.Spec -> manifest -> World -> (cluster.Manifest + error) * World;
  clusterctlConfigTemplate : string;
  generatedDir : string;
  overridesDir : string;
  EksaSystemNamespace : string;
  ValidationError_Error : list string -> string
}.

Module executables.
Section Clusterctl.
Context `{Externals} `{!System}.
Open Scope state_scope.

(** [Executable], the interface the generated mock implements; the output
    buffer is its text *)
Record Executable : Type := {
  Execute : list string -> World -> (string + error) * World;
  ExecuteWithEnv :
    list (string * string) -> list string -> World -> (string + error) * World;
  ExecuteWithStdin : string -> list string -> World -> (string + error) * World
}.

Definition clusterCtlPath : string := "clusterctl".
Definition clusterctlConfigFile : string := "clusterctl_tmp.yaml".
Definition capiPrefix : string := "/generated/overrides".

Record Clusterctl : Type := {
  executable : Executable;
  writer : file_writer
}.

Record clusterctlConfiguration : Type := {
  coreVersion : string;
  bootstrapVersion : string;
  controlPlaneVersion : string;
  configFile : string;
  etcdadmBootstrapVersion : string;
  etcdadmControllerVersion : string
}.

Definition NewClusterctl (executable : Executable) (writer : file_writer)
  : Clusterctl :=
  {| executable := executable; writer := writer |}.

Definition imageRepository (i : image) : string := path_Dir (Image_Image i).

(** what the wrapper does to the outside, oldest first *)
Inductive Effect : Type :=
| GetwdE
| WriteToFileE (fileName : string)
| MkdirAllE (dir : string)
| LoadManifestE (m : manifest)
| WriteFileE (file : string)
| ExecuteE (params : list string)
| ExecuteWithEnvE (env : list (string * string)) (params : list string)
| EnvMapE.

Record Sys : Type := {
  world : World;
  effects : list Effect
}.

Definition sys {A : Type} (e : Effect) (f : World -> A * World)
  : State Sys A :=
  fun s =>
    let (a, w') := f (world s) in
    (a, {| world := w'; effects := effects s ++ [e] |}).

Definition writeInfrastructureBundle (clusterSpec : cluster.Spec)
  (rootFolder : string) (bundle : option types.InfrastructureBundle)
  : State Sys (option error) :=
  match bundle with
  | None => ret None
  | Some bundle =>
      let infraFolder := filepath_Join [rootFolder; types.FolderName bundle] in
      err <- sys (MkdirAllE infraFolder) (MkdirAll infraFolder) ;;
      match err with
      | Some err => ret (Some err)
      | None =>
          (fix manifests (ms : list manifest) : State Sys (option error) :=
             match ms with
             | [] => ret None
             | m :: ms' =>
                 r <- sys (LoadManifestE m) (LoadManifest clusterSpec m) ;;
                 match r with
                 | inr err =>
                     ret (Some (Errorf ("can't load infrastructure bundle: "
                                          ++ Error ValidationError_Error err)))
                 | inl m =>
                     let file := filepath_Join [infraFolder; cluster.Filename m] in
                     err <- sys (WriteFileE file) (WriteFile file (cluster.Content m)) ;;
                     match err with
                     | Some err =>
                         ret (Some (Errorf
                                ("error generating file for infrastructure bundle "
                                   ++ cluster.Filename m ++ ": "
                                   ++ Error ValidationError_Error err)))
                     | None => manifests ms'
                     end
                 end
             end) (types.Manifests bundle)
      end
  end.

(** This method will write the configuration files used by cluster api to
    install components.  The bundle of the provider is dereferenced, so it
    is not nil. *)
Definition buildOverridesLayer (clusterSpec : cluster.Spec)
  (clusterName : string) (provider : interfaces.Provider)
  : State Sys (option error) :=
  let bundle := cluster.VersionsBundle clusterSpec in
  let prefix := filepath_Join [clusterName; generatedDir; overridesDir] in
  let folder (name : string) (b : v1alpha1.CapiBundle) :=
    {| types.FolderName := filepath_Join [name; v1alpha1.Version b];
       types.Manifests := [v1alpha1.Components b; v1alpha1.Metadata b] |} in
  let infraBundles :=
    [ folder "bootstrap-kubeadm" (v1alpha1.Bootstrap bundle);
      folder "cluster-api" (v1alpha1.ClusterAPI bundle);
      folder "control-plane-kubeadm" (v1alpha1.ControlPlane bundle) ] in
  let infraBundles :=
    if cluster.ExternalEtcdConfiguration clusterSpec then
      (infraBundles ++
       [ folder "bootstrap-etcdadm-bootstrap" (v1alpha1.ExternalEtcdBootstrap bundle);
         folder "bootstrap-etcdadm-controller" (v1alpha1.ExternalEtcdController bundle) ])%list
    else infraBundles in
  let infraBundles :=
    (infraBundles ++ [interfaces.GetInfrastructureBundle provider clusterSpec])%list in
  (fix bundles (bs : list types.InfrastructureBundle) : State Sys (option error) :=
     match bs with
     | [] => ret None
     | infraBundle :: bs' =>
         err <- writeInfrastructureBundle clusterSpec prefix (Some infraBundle) ;;
         match err with
         | Some err => ret (Some err)
         | None => bundles bs'
         end
     end) infraBundles.

Definition MoveManagement (c : Clusterctl) (from to : types.Cluster)
  : State Sys (option error) :=
  let params := ["move"; "--to-kubeconfig"; types.KubeconfigFile to;
                 "--namespace"; EksaSystemNamespace] in
  let params :=
    if String.eqb (types.KubeconfigFile from) "" then params
    else (params ++ ["--kubeconfig"; types.KubeconfigFile from])%list in
  r <- sys (ExecuteE params) (Execute (executable c) params) ;;
  match r with
  | inr err =>
      ret (Some (Errorf ("failed moving management cluster: "
                           ++ Error ValidationError_Error err)))
  | inl _ => ret None
  end.

Definition GetWorkloadKubeconfig (c : Clusterctl) (clusterName : string)
  (cluster : types.Cluster) : State Sys (string + error) :=
  let params := ["get"; "kubeconfig"; clusterName;
                 "--kubeconfig"; types.KubeconfigFile cluster;
                 "--namespace"; EksaSystemNamespace] in
  r <- sys (ExecuteE params) (Execute (executable c) params) ;;
  match r with
  | inr err =>
      ret (inr (Errorf ("error executing get kubeconfig: "
                          ++ Error ValidationError_Error err)))
  | inl stdOut => ret (inl stdOut)
  end.

Definition templateData (bundle : v1alpha1.VersionsBundle) (dir : string)
  : list (string * string) :=
  let repo := imageRepository in
  let tag := Image_Tag in
  [ ("CertManagerInjectorRepository", repo (v1alpha1.Cainjector (v1alpha1.CertManager bundle)));
    ("CertManagerInjectorTag", tag (v1alpha1.Cainjector (v1alpha1.CertManager bundle)));
    ("CertManagerControllerRepository", repo (v1alpha1.CertManagerController (v1alpha1.CertManager bundle)));
    ("CertManagerControllerTag", tag (v1alpha1.CertManagerController (v1alpha1.CertManager bundle)));
    ("CertManagerWebhookRepository", repo (v1alpha1.Webhook (v1alpha1.CertManager bundle)));
    ("CertManagerWebhookTag", tag (v1alpha1.Webhook (v1alpha1.CertManager bundle)));
    ("ClusterApiControllerRepository", repo (v1alpha1.Controller (v1alpha1.ClusterAPI bundle)));
    ("ClusterApiControllerTag", tag (v1alpha1.Controller (v1alpha1.ClusterAPI bundle)));
    ("ClusterApiKubeRbacProxyRepository", repo (v1alpha1.KubeProxy (v1alpha1.ClusterAPI bundle)));
    ("ClusterApiKubeRbacProxyTag", tag (v1alpha1.KubeProxy (v1alpha1.ClusterAPI bundle)));
    ("KubeadmBootstrapControllerRepository", repo (v1alpha1.Controller (v1alpha1.Bootstrap bundle)));
    ("KubeadmBootstrapControllerTag", tag (v1alpha1.Controller (v1alpha1.Bootstrap bundle)));
    ("KubeadmBootstrapKubeRbacProxyRepository", repo (v1alpha1.KubeProxy (v1alpha1.Bootstrap bundle)));
    ("KubeadmBootstrapKubeRbacProxyTag", tag (v1alpha1.KubeProxy (v1alpha1.Bootstrap bundle)));
    ("KubeadmControlPlaneControllerRepository", repo (v1alpha1.Controller (v1alpha1.ControlPlane bundle)));
    ("KubeadmControlPlaneControllerTag", tag (v1alpha1.Controller (v1alpha1.ControlPlane bundle)));
    ("KubeadmControlPlaneKubeRbacProxyRepository", repo (v1alpha1.KubeProxy (v1alpha1.ControlPlane bundle)));
    ("KubeadmControlPlaneKubeRbacProxyTag", tag (v1alpha1.KubeProxy (v1alpha1.ControlPlane bundle)));
    ("ClusterApiAwsControllerRepository", repo (v1alpha1.AwsController (v1alpha1.Aws bundle)));
    ("ClusterApiAwsControllerTag", tag (v1alpha1.AwsController (v1alpha1.Aws bundle)));
    ("ClusterApiAwsKubeRbacProxyRepository", repo (v1alpha1.AwsKubeProxy (v1alpha1.Aws bundle)));
    ("ClusterApiAwsKubeRbacProxyTag", tag (v1alpha1.AwsKubeProxy (v1alpha1.Aws bundle)));
    ("ClusterApiVSphereControllerRepository", repo (v1alpha1.ClusterAPIController (v1alpha1.VSphere bundle)));
    ("ClusterApiVSphereControllerTag", tag (v1alpha1.ClusterAPIController (v1alpha1.VSphere bundle)));
    ("ClusterApiVSphereKubeRbacProxyRepository", repo (v1alpha1.VSphereKubeProxy (v1alpha1.VSphere bundle)));
    ("ClusterApiVSphereKubeRbacProxyTag", tag (v1alpha1.VSphereKubeProxy (v1alpha1.VSphere bundle)));
    ("DockerKubeRbacProxyRepository", repo (v1alpha1.DockerKubeProxy (v1alpha1.Docker bundle)));
    ("DockerKubeRbacProxyTag", tag (v1alpha1.DockerKubeProxy (v1alpha1.Docker bundle)));
    ("DockerManagerRepository", repo (v1alpha1.Manager (v1alpha1.Docker bundle)));
    ("DockerManagerTag", tag (v1alpha1.Manager (v1alpha1.Docker bundle)));
    ("EtcdadmBootstrapProviderRepository", repo (v1alpha1.Controller (v1alpha1.ExternalEtcdBootstrap bundle)));
    ("EtcdadmBootstrapProviderTag", tag (v1alpha1.Controller (v1alpha1.ExternalEtcdBootstrap bundle)));
    ("EtcdadmBootstrapProviderKubeRbacProxyRepository", repo (v1alpha1.KubeProxy (v1alpha1.ExternalEtcdBootstrap bundle)));
    ("EtcdadmBootstrapProviderKubeRbacProxyTag", tag (v1alpha1.KubeProxy (v1alpha1.ExternalEtcdBootstrap bundle)));
    ("EtcdadmControllerRepository", repo (v1alpha1.Controller (v1alpha1.ExternalEtcdController bundle)));
    ("EtcdadmControllerTag", tag (v1alpha1.Controller (v1alpha1.ExternalEtcdController bundle)));
    ("EtcdadmControllerKubeRbacProxyRepository", repo (v1alpha1.KubeProxy (v1alpha1.ExternalEtcdController bundle)));
    ("EtcdadmControllerKubeRbacProxyTag", tag (v1alpha1.KubeProxy (v1alpha1.ExternalEtcdController bundle)));
    ("dir", dir) ].

Definition buildConfig (c : Clusterctl) (clusterSpec : cluster.Spec)
  (clusterName : string) (provider : interfaces.Provider)
  : State Sys (clusterctlConfiguration + error) :=
  let bundle := cluster.VersionsBundle clusterSpec in
  r <- sys GetwdE Getwd ;;
  match r with
  | inr err => ret (inr err)
  | inl path =>
      let data := templateData bundle (path ++ "/" ++ clusterName ++ capiPrefix) in
      r <- sys (WriteToFileE clusterctlConfigFile)
             (WriteToFile (writer c) clusterctlConfigTemplate data
                clusterctlConfigFile) ;;
      match r with
      | inr err =>
          ret (inr (Errorf ("error generating configuration file for clusterctl: "
                              ++ Error ValidationError_Error err)))
      | inl filePath =>
          err <- buildOverridesLayer clusterSpec clusterName provider ;;
          match err with
          | Some err => ret (inr err)
          | None =>
              ret (inl
                {| configFile := filePath;
                   bootstrapVersion :=
                     "kubeadm:" ++ v1alpha1.Version (v1alpha1.Bootstrap bundle);
                   controlPlaneVersion :=
                     "kubeadm:" ++ v1alpha1.Version (v1alpha1.ControlPlane bundle);
                   coreVersion :=
                     "cluster-api:" ++ v1alpha1.Version (v1alpha1.ClusterAPI bundle);
                   etcdadmBootstrapVersion :=
                     "etcdadm-bootstrap:"
                       ++ v1alpha1.Version (v1alpha1.ExternalEtcdBootstrap bundle);
                   etcdadmControllerVersion :=
                     "etcdadm-controller:"
                       ++ v1alpha1.Version (v1alpha1.ExternalEtcdController bundle) |})
          end
      end
  end.

Definition InitInfrastructure (c : Clusterctl) (clusterSpec : cluster.Spec)
  (cluster : option types.Cluster) (provider : interfaces.Provider)
  : State Sys (option error) :=
  match cluster with
  | None => ret (Some (Errorf "invalid cluster (nil)"))
  | Some cluster =>
  if String.eqb (types.Name cluster) "" then
    ret (Some (Errorf ("invalid cluster name '" ++ types.Name cluster ++ "'")))
  else
  r <- buildConfig c clusterSpec (types.Name cluster) provider ;;
  match r with
  | inr err => ret (Some err)
  | inl clusterctlConfig =>
  let params :=
    [ "init";
      "--core"; coreVersion clusterctlConfig;
      "--bootstrap"; bootstrapVersion clusterctlConfig;
      "--control-plane"; controlPlaneVersion clusterctlConfig;
      "--infrastructure";
      interfaces.Name provider ++ ":" ++ interfaces.Version provider clusterSpec;
      "--config"; configFile clusterctlConfig ] in
  let params :=
    if cluster.ExternalEtcdConfiguration clusterSpec then
      (params ++ ["--bootstrap"; etcdadmBootstrapVersion clusterctlConfig;
                  "--bootstrap"; etcdadmControllerVersion clusterctlConfig])%list
    else params in
  let params :=
    if String.eqb (types.KubeconfigFile cluster) "" then params
    else (params ++ ["--kubeconfig"; types.KubeconfigFile cluster])%list in
  r <- sys EnvMapE (interfaces.EnvMap provider) ;;
  match r with
  | inr err => ret (Some err)
  | inl envMap =>
  r <- sys (ExecuteWithEnvE envMap params)
         (ExecuteWithEnv (executable c) envMap params) ;;
  match r with
  | inr err =>
      ret (Some (Errorf ("error executing init: "
                           ++ Error ValidationError_Error err)))
  | inl _ => ret None
  end end end end.

End Clusterctl.
End executables.


(** ** The run in which nothing fails *)

Section HappyPath.
Context `{Externals} `{!Clustermarshaller}.
Import task workflows.



(** the "on success" column of the transition table *)
Definition onSuccess (t : CreateTask) : option CreateTask :=
  match t with
  | SetAndValidateTask => Some CreateBootStrapClusterTask
  | CreateBootStrapClusterTask => Some CreateWorkloadClusterTask
  | CreateWorkloadClusterTask => Some MoveClusterManagementTask
  | MoveClusterManagementTask => Some InstallEksaComponentsTask
  | InstallEksaComponentsTask => Some InstallAddonManagerTask
  | InstallAddonManagerTask => Some WriteClusterConfigTask
  | WriteClusterConfigTask => Some DeleteBootstrapClusterTask
  | DeleteBootstrapClusterTask => None
  | DeleteKindClusterTask => None
  end.

(** the eight stages, in the order of the forward path *)
Definition forwardPath : list CreateTask :=
  [ SetAndValidateTask; CreateBootStrapClusterTask; CreateWorkloadClusterTask;
    MoveClusterManagementTask; InstallEksaComponentsTask;
    InstallAddonManagerTask; WriteClusterConfigTask;
    DeleteBootstrapClusterTask ].


End HappyPath.

(** ** More ways to read a run *)

Section Reading.
Context `{Externals} `{!Clustermarshaller}.
Import task workflows.

(** the successors a task can name, as its [Run] has them *)
Definition successors (t : CreateTask) : list (option CreateTask) :=
  match t with
  | SetAndValidateTask => [Some CreateBootStrapClusterTask; None]
  | CreateBootStrapClusterTask =>
      [Some CreateWorkloadClusterTask; Some DeleteKindClusterTask; None]
  | CreateWorkloadClusterTask => [Some MoveClusterManagementTask; None]
  | MoveClusterManagementTask => [Some InstallEksaComponentsTask; None]
  | InstallEksaComponentsTask => [Some InstallAddonManagerTask; None]
  | InstallAddonManagerTask => [Some WriteClusterConfigTask]
  | WriteClusterConfigTask => [Some DeleteBootstrapClusterTask]
  | DeleteBootstrapClusterTask => [None]
  | DeleteKindClusterTask => [None]
  end.





(** the clusters whose logs the cluster manager was asked to save *)
Fixpoint savedLogs (tr : list Event) : list (option types.Cluster) :=
  match tr with
  | [] => []
  | Invoke (SaveLogsC target) _ :: tr' => target :: savedLogs tr'
  | _ :: tr' => savedLogs tr'
  end.

(** how often success was reported to the user *)
Fixpoint successReports (tr : list Event) : nat :=
  match tr with
  | [] => 0
  | MarkSuccess _ :: tr' => S (successReports tr')
  | _ :: tr' => successReports tr'
  end.








(** the task lists a chain can run from [t], following [successors], in at
    most [n] tasks *)
Fixpoint paths (n : nat) (t : CreateTask) : list (list CreateTask) :=
  match n with
  | O => []
  | S n' =>
      flat_map
        (fun next : option CreateTask =>
           match next with
           | None => [[t]]
           | Some t' => map (cons t) (paths n' t')
           end)
        (successors t)
  end.

End Reading.

(** ** Reading what the clusterctl wrapper did *)

Section ReadingEffects.
Context `{Externals} `{!System}.
Import executables.

(** the effects of writing the overrides layer *)
Definition isOverride (e : Effect) : bool :=
  match e with
  | MkdirAllE _ | LoadManifestE _ | WriteFileE _ => true
  | _ => false
  end.

(** the runs of the executable: environment and arguments *)
Fixpoint executions (effs : list Effect)
  : list (option (list (string * string)) * list string) :=
  match effs with
  | [] => []
  | ExecuteE params :: effs' => (None, params) :: executions effs'
  | ExecuteWithEnvE env params :: effs' => (Some env, params) :: executions effs'
  | _ :: effs' => executions effs'
  end.

(** the directories created *)
Fixpoint directories (effs : list Effect) : list string :=
  match effs with
  | [] => []
  | MkdirAllE dir :: effs' => dir :: directories effs'
  | _ :: effs' => directories effs'
  end.

(** the manifests loaded *)
Fixpoint loads (effs : list Effect) : list manifest :=
  match effs with
  | [] => []
  | LoadManifestE m :: effs' => m :: loads effs'
  | _ :: effs' => loads effs'
  end.

(** the files written with [ioutil.WriteFile] *)
Fixpoint written (effs : list Effect) : list string :=
  match effs with
  | [] => []
  | WriteFileE file :: effs' => file :: written effs'
  | _ :: effs' => written effs'
  end.

(** the manifests of the cluster-api bundles, in the order
    [buildOverridesLayer] lists them *)
Definition capiManifests (b : v1alpha1.CapiBundle) : list manifest :=
  [v1alpha1.Components b; v1alpha1.Metadata b].

End ReadingEffects.

(** ** A scripted outside, to run the model on

    The outside counts the calls made to it; a collaborator method fails
    when its name is in [failing]. *)

Module demo.

Definition externals : Externals :=
  {| World := nat;
     BootstrapClusterOption := string;
     datacenter_config := string;
     machine_config := string;
     file_writer := string;
     image := string;
     manifest := string;
     Image_Image := fun i => i;
     Image_Tag := fun _ => "latest";
     path_Dir := fun p => p;
     filepath_Join := String.concat "/";
     DatacenterPauseReconcile := fun d w => (d, S w) |}.

#[local] Existing Instance externals.

Definition fails (failing : list string) (name : string) : bool :=
  existsb (String.eqb name) failing.

Definition attempt (failing : list string) (name : string)
  : World -> option error * World :=
  fun w => (if fails failing name then Some (Errorf (name ++ " failed")) else None,
            S w).

Definition attemptV {A : Type} (failing : list string) (name : string) (a : A)
  : World -> (A + error) * World :=
  fun w => (if fails failing name then inr (Errorf (name ++ " failed")) else inl a,
            S w).

Definition marshaller (failing : list string) : Clustermarshaller :=
  {| WriteClusterConfig := fun _ _ _ _ => attempt failing "WriteClusterConfig" |}.

(** a writer that succeeds, and one on a full disk *)
Definition writes : Clustermarshaller := marshaller [].

Definition fullDisk : Clustermarshaller := marshaller ["WriteClusterConfig"].

Definition kind : types.Cluster :=
  {| types.Name := "dev"; types.KubeconfigFile := "dev/kind.kubeconfig" |}.

Definition workload : types.Cluster :=
  {| types.Name := "dev"; types.KubeconfigFile := "dev/dev.kubeconfig" |}.

Definition infrastructureBundle : types.InfrastructureBundle :=
  {| types.FolderName := "infrastructure-docker";
     types.Manifests := ["infrastructure-components.yaml"] |}.

Definition theProvider (failing : list string) : interfaces.Provider :=
  {| interfaces.Name := "docker";
     interfaces.BootstrapClusterOpts := attemptV failing "BootstrapClusterOpts" [];
     interfaces.BootstrapSetup := fun _ _ => attempt failing "BootstrapSetup";
     interfaces.SetupAndValidateCreateCluster :=
       fun _ => attempt failing "SetupAndValidateCreateCluster";
     interfaces.DatacenterConfig := fun w => ("datacenter", w);
     interfaces.MachineConfigs := fun w => (["machines"], w);
     interfaces.Version := fun _ => "v0.3.19";
     interfaces.EnvMap := attemptV failing "EnvMap" [];
     interfaces.GetInfrastructureBundle := fun _ => infrastructureBundle |}.

Definition theBootstrapper (failing : list string) : interfaces.Bootstrapper :=
  {| interfaces.CreateBootstrapCluster :=
       fun _ _ => attemptV failing "CreateBootstrapCluster" kind;
     interfaces.DeleteBootstrapCluster :=
       fun _ _ => attempt failing "DeleteBootstrapCluster" |}.

Definition theClusterManager (failing : list string) : interfaces.ClusterManager :=
  {| interfaces.InstallCapi := fun _ _ _ => attempt failing "InstallCapi";
     interfaces.CreateWorkloadCluster :=
       fun _ _ _ => attemptV failing "CreateWorkloadCluster" workload;
     interfaces.InstallNetworking := fun _ _ => attempt failing "InstallNetworking";
     interfaces.InstallStorageClass :=
       fun _ _ => attempt failing "InstallStorageClass";
     interfaces.InstallMachineHealthChecks :=
       fun _ _ => attempt failing "InstallMachineHealthChecks";
     interfaces.MoveCapi := fun _ _ => attempt failing "MoveCapi";
     interfaces.InstallCustomComponents :=
       fun _ _ => attempt failing "InstallCustomComponents";
     interfaces.CreateEKSAResources :=
       fun _ _ _ _ => attempt failing "CreateEKSAResources";
     interfaces.ResumeEKSAControllerReconcile :=
       fun _ _ _ => attempt failing "ResumeEKSAControllerReconcile";
     interfaces.SaveLogs := fun _ => attempt failing "SaveLogs" |}.

(** a named check that fails when its name is in [failing] *)
Definition check (failing : list string) (name : string) : validations.Validation :=
  fun w =>
    ({| validations.Name := name;
        validations.Err :=
          if fails failing name then Some (Errorf (name ++ " failed")) else None |},
     S w).

(** one validation of the addon manager: the git provider is reachable *)
Definition gitValidation (failing : list string) : validations.Validation :=
  fun w =>
    ({| validations.Name := "validate git provider";
        validations.Err :=
          if fails failing "git" then Some (Errorf "git failed") else None |},
     S w).

Definition theAddonManager (failing : list string) : interfaces.AddonManager :=
  {| interfaces.InstallGitOps := fun _ _ _ _ => attempt failing "InstallGitOps";
     interfaces.Validations := fun _ w => ([gitValidation failing], w) |}.

Definition create (failing : list string) : workflows.Create :=
  workflows.NewCreate (theBootstrapper failing) (theProvider failing)
    (theClusterManager failing) (theAddonManager failing) "dev".

Definition capiBundle (version : string) : v1alpha1.CapiBundle :=
  {| v1alpha1.Version := version;
     v1alpha1.Components := "components.yaml";
     v1alpha1.Metadata := "metadata.yaml";
     v1alpha1.Controller := "controller";
     v1alpha1.KubeProxy := "kube-rbac-proxy" |}.

Definition bundle : v1alpha1.VersionsBundle :=
  {| v1alpha1.CertManager :=
       {| v1alpha1.Cainjector := "cainjector";
          v1alpha1.CertManagerController := "controller";
          v1alpha1.Webhook := "webhook" |};
     v1alpha1.ClusterAPI := capiBundle "v0.3.19";
     v1alpha1.Bootstrap := capiBundle "v0.3.19";
     v1alpha1.ControlPlane := capiBundle "v0.3.19";
     v1alpha1.Aws :=
       {| v1alpha1.AwsController := "controller";
          v1alpha1.AwsKubeProxy := "kube-rbac-proxy" |};
     v1alpha1.VSphere :=
       {| v1alpha1.ClusterAPIController := "controller";
          v1alpha1.VSphereKubeProxy := "kube-rbac-proxy" |};
     v1alpha1.Docker :=
       {| v1alpha1.DockerKubeProxy := "kube-rbac-proxy";
          v1alpha1.Manager := "manager" |};
     v1alpha1.ExternalEtcdBootstrap := capiBundle "v0.1.0";
     v1alpha1.ExternalEtcdController := capiBundle "v0.1.0" |}.

Definition spec : cluster.Spec :=
  {| cluster.Name := "dev";
     cluster.ExternalEtcdConfiguration := false;
     cluster.VersionsBundle := bundle;
     cluster.paused := false |}.

(** the machine [Create.Run] hands to the chain *)
Definition start (failing : list string) : task.Machine :=
  {| task.ctx := workflows.newCommandContext (create failing) spec;
     task.world := 0;
     task.trace := [] |}.


(** the outside of the clusterctl wrapper *)
Definition system (failing : list string) : System :=
  {| Getwd := attemptV failing "Getwd" "/home/eksa";
     MkdirAll := fun _ => attempt failing "MkdirAll";
     WriteFile := fun _ _ => attempt failing "WriteFile";
     WriteToFile :=
       fun _ _ _ fileName => attemptV failing "WriteToFile" ("dev/generated/" ++ fileName);
     LoadManifest :=
       fun _ m =>
         attemptV failing "LoadManifest"
           {| cluster.Filename := m; cluster.Content := "kind: Deployment" |};
     clusterctlConfigTemplate := "cert-manager: {{.CertManagerControllerTag}}";
     generatedDir := "generated";
     overridesDir := "overrides";
     EksaSystemNamespace := "eksa-system";
     ValidationError_Error := String.concat ", " |}.

Definition theExecutable (failing : list string) : executables.Executable :=
  {| executables.Execute := fun _ => attemptV failing "Execute" "";
     executables.ExecuteWithEnv := fun _ _ => attemptV failing "ExecuteWithEnv" "";
     executables.ExecuteWithStdin :=
       fun _ _ => attemptV failing "ExecuteWithStdin" "" |}.

Definition clusterctl (failing : list string) : executables.Clusterctl :=
  executables.NewClusterctl (theExecutable failing) "dev".

(** nothing done yet *)
Definition idle : executables.Sys :=
  {| executables.world := 0; executables.effects := [] |}.

(** [clusterctl init] for the cluster handle [cl] *)
Definition init (failing : list string) (cl : option types.Cluster)
  : option error * executables.Sys :=
  @executables.InitInfrastructure externals (system failing)
    (clusterctl failing) spec cl (theProvider failing) idle.

(** the create entry point, with fuel for the eight stages *)
Definition run (failing : list string) (forceCleanup : bool)
  : option workflows.Outcome :=
  @workflows.Create_Run externals (marshaller failing) 8 (create failing) spec
    forceCleanup 0.

End demo.

(** * Properties of the validation runner *)

Section ValidationProofs.
Context `{Externals}.
Import validations.

Lemma collect_ran (vs : list Validation) :
  forall w, Forall2 ran vs (fst (collect vs w)).
Proof.
  induction vs as [|v vs IH]; intros w; cbn [collect].
  - constructor.
  - destruct (v w) as [result w1] eqn:Hv.
    specialize (IH w1). destruct (collect vs w1) as [results w2].
    cbn [fst] in *. constructor; [|exact IH].
    exists w. now rewrite Hv.
Qed.

Lemma collect_independent (vs : list Validation) :
  Forall independent vs ->
  forall w w0, fst (collect vs w) = map (resultIn w0) vs.
Proof.
  induction 1 as [|v vs Hv _ IH]; intros w w0; cbn [collect map].
  - reflexivity.
  - specialize (Hv w w0). unfold resultIn at 1. destruct (v w) as [result w1].
    specialize (IH w1 w0). destruct (collect vs w1) as [results w2].
    cbn [fst] in *. now rewrite Hv, IH.
Qed.

Lemma filter_Permutation {A : Type} (p : A -> bool) (l l' : list A) :
  Permutation l l' -> Permutation (filter p l) (filter p l').
Proof.
  induction 1 as [|x l l' _ IH|x y l|l l' l'' _ IH1 _ IH2]; cbn [filter].
  - constructor.
  - destruct (p x); [now constructor|exact IH].
  - destruct (p x), (p y); try reflexivity. apply perm_swap.
  - now transitivity (filter p l').
Qed.

Lemma aggregate_None (results : list ValidationResult) :
  aggregate results = None <-> List.length (filter has_failed results) = 0.
Proof.
  unfold aggregate, failedNames.
  destruct (filter has_failed results); cbn; split; congruence.
Qed.

Lemma aggregate_Some (results : list ValidationResult) :
  List.length (filter has_failed results) <> 0 ->
  aggregate results =
  Some (ValidationError (map Name (filter has_failed results))).
Proof.
  unfold aggregate, failedNames.
  destruct (filter has_failed results); cbn; congruence.
Qed.


(** C5. Validation aggregation: the runner runs each of the N registered
    validations, one result per validation and none skipped; it returns no
    error exactly when the number k of failed results is 0, and otherwise
    the one error that carries the names of the k failed results.  For
    validations that are independent of the outside, registering them in
    another order gives the same names up to order, and an error in the
    same cases. *)
Theorem validation_runner_aggregates (vs : list Validation) (w : World)
  (err : option error) (results : list ValidationResult) (w1 : World) :
  Run (Register NewRunner vs) w = (err, results, w1) ->
  Forall2 ran vs results /\
  List.length results = List.length vs /\
  (err = None <-> List.length (filter has_failed results) = 0) /\
  (List.length (filter has_failed results) <> 0 ->
   err = Some (ValidationError (map Name (filter has_failed results)))) /\
  (forall vs' w' err' results' w1',
     Forall independent vs ->
     Permutation vs vs' ->
     Run (Register NewRunner vs') w' = (err', results', w1') ->
     Permutation (failedNames results) (failedNames results') /\
     (err = None <-> err' = None)).
Proof.
  unfold Run, Register, NewRunner. cbn [registered app].
  intros Hrun.
  pose proof (collect_ran vs w) as Hran.
  destruct (collect vs w) as [rs w2] eqn:Hcollect.
  injection Hrun as <- <- <-. cbn [fst] in Hran.
  split; [exact Hran|].
  split; [symmetry; eapply Forall2_length; exact Hran|].
  split; [apply aggregate_None|].
  split; [apply aggregate_Some|].
  intros vs' w' err' results' w1' Hind Hperm Hrun'.
  assert (Hind' : Forall independent vs')
    by (eapply Permutation_Forall; eassumption).
  pose proof (collect_independent vs Hind w w) as Hrs.
  pose proof (collect_independent vs' Hind' w' w) as Hrs'.
  rewrite Hcollect in Hrs. cbn [fst] in Hrs.
  destruct (collect vs' w') as [rs' w2']. injection Hrun' as <- <- <-.
  cbn [fst] in Hrs'. subst rs rs'.
  assert (Hfailed : Permutation
            (filter has_failed (map (resultIn w) vs))
            (filter has_failed (map (resultIn w) vs'))).
  { apply filter_Permutation, Permutation_map. exact Hperm. }
  split.
  - unfold failedNames. apply Permutation_map. exact Hfailed.
  - apply Permutation_length in Hfailed.
    split; intros Hnone; apply aggregate_None; apply aggregate_None in Hnone;
      congruence.
Qed.

End ValidationProofs.

(** * Properties of the create workflow *)

Section WorkflowProofs.
Context `{Externals} `{!Clustermarshaller}.
Import task workflows.

(** ** Reading the context *)

(** read a field of a context the tasks have updated *)
Ltac read_ctx :=
  cbn [SetError withBootstrapCluster withWorkloadCluster withClusterSpec
       Bootstrapper Provider ClusterManager AddonManager ClusterSpec Rollback
       Writer BootstrapCluster WorkloadCluster OriginalError].

Ltac simpl_ctx :=
  cbn [SetError withBootstrapCluster withWorkloadCluster withClusterSpec
       Bootstrapper Provider ClusterManager AddonManager ClusterSpec Rollback
       Writer BootstrapCluster WorkloadCluster OriginalError] in *.

(** unfold one task into the calls it makes, one case per outcome *)
Ltac case_outcome :=
  match goal with
  | |- context [match ?x with _ => _ end] =>
      lazymatch x with
      | context [match _ with _ => _ end] => fail
      | _ => destruct x eqn:?
      end
  end.

Ltac run_monad :=
  cbn beta iota zeta delta [fst snd ctx world trace failure_of]; read_ctx.

Ltac run_task :=
  cbn [Run CreateTask_Task];
  unfold CreateBootStrapClusterTask_Run, DeleteKindClusterTask_Run,
    SetAndValidateTask_Run, CreateWorkloadClusterTask_Run,
    MoveClusterManagementTask_Run, InstallEksaComponentsTask_Run,
    InstallAddonManagerTask_Run, WriteClusterConfigTask_Run,
    DeleteBootstrapClusterTask_Run;
  unfold call, callV, setError;
  unfold bind, ret, outside, emit, modifyCtx, getCtx;
  repeat first [ progress run_monad | case_outcome ].

(** ** The captured error *)

Lemma SetError_captured (err : error) (c : CommandContext) (e0 : error) :
  OriginalError c = Some e0 -> SetError err c = c.
Proof. destruct c. cbn. intros ->. reflexivity. Qed.

Lemma SetError_fresh (err : error) (c : CommandContext) :
  OriginalError c = None -> OriginalError (SetError err c) = Some err.
Proof. cbn. intros ->. reflexivity. Qed.

Lemma SetError_all_captured (errs : list error) (c : CommandContext) (e0 : error) :
  OriginalError c = Some e0 ->
  fold_left (fun c e => SetError e c) errs c = c.
Proof.
  induction errs as [|e errs IH]; intros Hc; cbn; [reflexivity|].
  rewrite (SetError_captured e c e0 Hc). now apply IH.
Qed.

(** C1. First error wins: whatever errors are handed to [SetError] on a
    context that has captured none, [e1] first and then any others, the
    captured original error is [e1]; no later call replaces it. *)
Theorem SetError_first_error_wins
  (c : CommandContext) (e1 : error) (later : list error) :
  OriginalError c = None ->
  OriginalError (fold_left (fun c e => SetError e c) (e1 :: later) c) = Some e1.
Proof.
  intros Hc. cbn [fold_left].
  rewrite (SetError_all_captured later (SetError e1 c) e1).
  - now apply SetError_fresh.
  - now apply SetError_fresh.
Qed.

(** ** Termination of the chain *)

Lemma Run_remaining (t : CreateTask) (m : Machine) (t' : CreateTask) :
  fst (Run t m) = Some t' -> remaining t' < remaining t.
Proof.
  destruct t; run_task.
  all: try discriminate.
  all: intros [= <-]; cbn; lia.
Qed.

Lemma runChain_done {T : Type} `{Task T} (fuel : nat) (m : Machine) :
  runChain fuel (@None T) m = Some ([], m).
Proof. destruct fuel; reflexivity. Qed.

Lemma runChain_step {T : Type} `{Task T} (fuel : nat) (t : T) (m : Machine) :
  runChain (S fuel) (Some t) m =
  match runChain fuel (fst (Run t m)) (snd (Run t m)) with
  | Some (ts, m') => Some (t :: ts, m')
  | None => None
  end.
Proof. cbn [runChain]. destruct (Run t m); reflexivity. Qed.

(** the tasks of a chain run in strictly decreasing order of [remaining] *)
Lemma runChain_descends (fuel : nat) :
  forall (t : CreateTask) (m : Machine),
    remaining t <= fuel ->
    exists ts m',
      runChain fuel (Some t) m = Some (t :: ts, m') /\
      List.length (t :: ts) <= remaining t /\
      Forall (fun t' => remaining t' < remaining t) ts /\
      NoDup (t :: ts).
Proof.
  induction fuel as [|fuel IH]; intros t m Hfuel.
  - destruct t; cbn in Hfuel; lia.
  - cbn [runChain]. destruct (Run t m) as [next m1] eqn:Hrun.
    destruct next as [t1|].
    + assert (Hlt : remaining t1 < remaining t)
        by (apply (Run_remaining t m); rewrite Hrun; reflexivity).
      destruct (IH t1 m1 ltac:(lia)) as (ts & m' & Hchain & Hlen & Hall & Hnd).
      rewrite Hchain. exists (t1 :: ts), m'. repeat split.
      * cbn in *. lia.
      * constructor; [exact Hlt|].
        eapply Forall_impl; [|exact Hall]. cbn. intros; lia.
      * constructor; [|exact Hnd].
        intros [->|Hin]; [lia|].
        rewrite Forall_forall in Hall. specialize (Hall _ Hin). lia.
    + rewrite runChain_done. exists [], m1. repeat split.
      * cbn. destruct t; cbn; lia.
      * constructor.
      * constructor; [intros []|constructor].
Qed.

(** C2. Chain termination: started at the Validate task, in any state and
    whatever the collaborators answer, the chain reaches a task that names
    no successor after at most 8 tasks, and no task runs twice. *)
Theorem create_chain_terminates (m : Machine) (spare : nat) :
  exists ts m',
    runChain (8 + spare) (Some SetAndValidateTask) m = Some (ts, m') /\
    RunTask (8 + spare) SetAndValidateTask m =
      Some (OriginalError (ctx m'), ts, m') /\
    List.length ts <= 8 /\
    NoDup ts.
Proof.
  destruct (runChain_descends (8 + spare) SetAndValidateTask m)
    as (ts & m' & Hchain & Hlen & _ & Hnd).
  - cbn; lia.
  - exists (SetAndValidateTask :: ts), m'. unfold RunTask. rewrite Hchain.
    repeat split; assumption.
Qed.

(** ** What a task leaves in the trace *)

Lemma observed_app (a b : list Event) :
  observed (a ++ b) = (observed a ++ observed b)%list.
Proof.
  induction a as [|e a IH]; [reflexivity|].
  destruct e; cbn; rewrite IH; reflexivity.
Qed.

Lemma observed_Validated (results : list validations.ValidationResult) :
  observed (map Validated results) = [].
Proof. induction results; [reflexivity|assumption]. Qed.

(** the new events lead with the old trace *)
Ltac split_trace :=
  eexists; split; [rewrite <- ?app_assoc; reflexivity|].

(** every assignment to the captured error goes through [SetError]: after
    a task the captured error is the one it had, or else the first error
    the task handed to [SetError] *)
Lemma Run_errors (t : CreateTask) (m : Machine) :
  exists d,
    trace (snd (Run t m)) = (trace m ++ d)%list /\
    OriginalError (ctx (snd (Run t m))) =
    match OriginalError (ctx m) with
    | Some e => Some e
    | None => hd_error (observed d)
    end.
Proof.
  destruct t; run_task; split_trace.
  all: rewrite ?observed_app, ?observed_Validated.
  all: cbn [observed app hd_error]; simpl_ctx.
  all: repeat (match goal with
       | |- context [match OriginalError ?c with _ => _ end] =>
           destruct (OriginalError c) eqn:?
       end; simpl_ctx); congruence.
Qed.

Lemma runChain_errors (fuel : nat) :
  forall (next : option CreateTask) (m : Machine) ts m',
    runChain fuel next m = Some (ts, m') ->
    exists d,
      trace m' = (trace m ++ d)%list /\
      OriginalError (ctx m') =
      match OriginalError (ctx m) with
      | Some e => Some e
      | None => hd_error (observed d)
      end.
Proof.
  induction fuel as [|fuel IH]; intros [t|] m ts m' Hchain.
  - discriminate.
  - cbn in Hchain. injection Hchain as <- <-. exists [].
    rewrite app_nil_r. split; [reflexivity|]. now destruct (OriginalError (ctx m)).
  - rewrite runChain_step in Hchain.
    destruct (runChain fuel (fst (Run t m)) (snd (Run t m)))
      as [[ts1 m1]|] eqn:Hrest; [|discriminate].
    injection Hchain as <- <-.
    destruct (Run_errors t m) as (d1 & Htr1 & Herr1).
    destruct (IH _ _ _ _ Hrest) as (d2 & Htr2 & Herr2).
    exists (d1 ++ d2)%list. split.
    + rewrite Htr2, Htr1, app_assoc. reflexivity.
    + rewrite Herr2, Herr1, observed_app.
      destruct (OriginalError (ctx m)); [reflexivity|].
      destruct (observed d1); reflexivity.
  - rewrite runChain_done in Hchain. injection Hchain as <- <-. exists [].
    rewrite app_nil_r. split; [reflexivity|]. now destruct (OriginalError (ctx m)).
Qed.

(** the error a run reports is the first one handed to [SetError] *)
Lemma RunTask_reports_first_error (fuel : nat) (t : CreateTask) (m : Machine)
  (r : option error) ts m' :
  OriginalError (ctx m) = None ->
  RunTask fuel t m = Some (r, ts, m') ->
  exists d, trace m' = (trace m ++ d)%list /\ r = hd_error (observed d).
Proof.
  unfold RunTask. intros Hfresh Hrun.
  destruct (runChain fuel (Some t) m) as [[ts1 m1]|] eqn:Hchain; [|discriminate].
  injection Hrun as <- <- <-.
  destruct (runChain_errors _ _ _ _ _ Hchain) as (d & Htr & Herr).
  exists d. split; [exact Htr|]. now rewrite Herr, Hfresh.
Qed.

(** ** The addon manager *)

(** C3. Addon isolation: when [InstallGitOps] fails in the addon stage,
    the command context is left as it was (so is its captured error), the
    error is not handed to [SetError] but reported as a warning, and the
    next task is Write-cluster-config, as it is when the call succeeds. *)
Theorem addon_failure_is_isolated (m : Machine) (err : error) :
  installGitOpsOutcome m = Some err ->
  fst (Run InstallAddonManagerTask m) = Some WriteClusterConfigTask /\
  ctx (snd (Run InstallAddonManagerTask m)) = ctx m /\
  OriginalError (ctx (snd (Run InstallAddonManagerTask m))) = OriginalError (ctx m) /\
  observed (trace (snd (Run InstallAddonManagerTask m))) = observed (trace m) /\
  In (Invoke (InstallGitOpsC (WorkloadCluster (ctx m))) (Some err))
    (trace (snd (Run InstallAddonManagerTask m))) /\
  (forall m2, installGitOpsOutcome m2 = None ->
     fst (Run InstallAddonManagerTask m2) = Some WriteClusterConfigTask /\
     ctx (snd (Run InstallAddonManagerTask m2)) = ctx m2).
Proof.
  intros Hfail.
  assert (Hrun : fst (Run InstallAddonManagerTask m) = Some WriteClusterConfigTask /\
                 ctx (snd (Run InstallAddonManagerTask m)) = ctx m /\
                 exists w',
                   snd (Run InstallAddonManagerTask m) =
                   {| ctx := ctx m; world := w';
                      trace := trace m ++
                        [Info "Installing AddonManager and GitOps Toolkit on workload cluster";
                         Invoke (InstallGitOpsC (WorkloadCluster (ctx m))) (Some err);
                         MarkFail "Error when installing GitOps toolkits on workload cluster; EKS-A will continue with cluster creation, but GitOps will not be enabled" err] |}).
  { unfold installGitOpsOutcome in Hfail. run_task; cbn [fst] in Hfail.
    - injection Hfail as ->. repeat split. eexists.
      rewrite <- !app_assoc. reflexivity.
    - discriminate. }
  destruct Hrun as (Hnext & Hctx & w' & Hstate).
  split; [exact Hnext|]. split; [exact Hctx|].
  split; [now rewrite Hctx|].
  split; [rewrite Hstate; cbn [trace]; rewrite observed_app; cbn;
          now rewrite app_nil_r|].
  split; [rewrite Hstate; cbn [trace]; rewrite in_app_iff; cbn; tauto|].
  intros m2 _. split; run_task; reflexivity.
Qed.

(** ** Writing the cluster config *)

Lemma DeleteBootstrapClusterTask_terminal (m : Machine) :
  fst (Run DeleteBootstrapClusterTask m) = None.
Proof. run_task; reflexivity. Qed.

(** C4. Write-cluster-config always hands over to Delete-bootstrap-cluster.
    When the write fails the error goes to [SetError]; if no error was
    captured before, the run that continues from here reports this error,
    whatever the deletion of the bootstrap cluster answers. *)
Theorem write_config_always_reaches_cleanup (m : Machine) :
  fst (Run WriteClusterConfigTask m) = Some DeleteBootstrapClusterTask /\
  (forall err, writeClusterConfigOutcome m = Some err ->
     ctx (snd (Run WriteClusterConfigTask m)) = SetError err (ctx m) /\
     exists d, trace (snd (Run WriteClusterConfigTask m)) = (trace m ++ d)%list /\
               observed d = [err]) /\
  (forall err spare,
     writeClusterConfigOutcome m = Some err ->
     OriginalError (ctx m) = None ->
     exists m',
       RunTask (2 + spare) WriteClusterConfigTask m =
       Some (Some err, [WriteClusterConfigTask; DeleteBootstrapClusterTask], m')).
Proof.
  assert (Hnext : fst (Run WriteClusterConfigTask m) = Some DeleteBootstrapClusterTask)
    by (run_task; reflexivity).
  assert (Hset : forall err, writeClusterConfigOutcome m = Some err ->
     ctx (snd (Run WriteClusterConfigTask m)) = SetError err (ctx m) /\
     exists d, trace (snd (Run WriteClusterConfigTask m)) = (trace m ++ d)%list /\
               observed d = [err]).
  { intros err Hfail. unfold writeClusterConfigOutcome in Hfail.
    run_task; cbn [fst] in Hfail; try discriminate.
    injection Hfail as ->. split; [reflexivity|]. split_trace. reflexivity. }
  split; [exact Hnext|]. split; [exact Hset|].
  intros err spare Hfail Hfresh.
  destruct (Hset err Hfail) as (Hctx & _).
  unfold RunTask. cbn [Nat.add]. rewrite runChain_step, Hnext, runChain_step.
  rewrite DeleteBootstrapClusterTask_terminal, runChain_done.
  eexists. f_equal. f_equal. f_equal.
  destruct (Run_errors DeleteBootstrapClusterTask (snd (Run WriteClusterConfigTask m)))
    as (d & _ & Herr).
  rewrite Herr, Hctx. now rewrite (SetError_fresh err (ctx m) Hfresh).
Qed.

(** ** Failure of the bootstrap stage *)



(** ** The entry point *)

Lemma runChain_trace (fuel : nat) (next : option CreateTask) (m : Machine)
  ts m' :
  runChain fuel next m = Some (ts, m') ->
  exists d, trace m' = (trace m ++ d)%list.
Proof.
  intros Hchain. destruct (runChain_errors _ _ _ _ _ Hchain) as (d & Htr & _).
  now exists d.
Qed.

(** C8. With [forceCleanup] set, the first thing [Create.Run] does is to
    ask the bootstrapper to delete the bootstrap cluster named after the
    cluster of the spec; if that fails, it returns this error at once: no
    command context is built, no task runs, and nothing else is done to the
    outside. *)
Theorem force_cleanup_precedes_chain (c : Create) (clusterSpec : cluster.Spec)
  (w : World) (spare : nat) :
  let stale := Some (staleBootstrapCluster clusterSpec) in
  let answer := interfaces.DeleteBootstrapCluster (bootstrapper c) stale false w in
  types.Name (staleBootstrapCluster clusterSpec) = cluster.Name clusterSpec /\
  (exists o rest,
     Create_Run (8 + spare) c clusterSpec true w = Some o /\
     events o = Invoke (DeleteBootstrapClusterC stale false) (fst answer) :: rest) /\
  (forall fuel err,
     fst answer = Some err ->
     Create_Run fuel c clusterSpec true w =
     Some {| returned := Some err;
             context := None;
             executed := [];
             final_world := snd answer;
             events := [Invoke (DeleteBootstrapClusterC stale false) (Some err)] |}).
Proof.
  cbn zeta. split; [reflexivity|]. unfold Create_Run.
  destruct (interfaces.DeleteBootstrapCluster (bootstrapper c)
              (Some (staleBootstrapCluster clusterSpec)) false w)
    as [answer w0] eqn:Hdelete.
  cbn [fst snd]. split.
  - destruct answer as [err|].
    + eexists _, []. split; reflexivity.
    + unfold RunTask.
      destruct (runChain_descends (8 + spare) SetAndValidateTask
                  {| ctx := newCommandContext c clusterSpec; world := w0;
                     trace := [Invoke (DeleteBootstrapClusterC
                                 (Some (staleBootstrapCluster clusterSpec)) false)
                                 None] |} ltac:(cbn; lia))
        as (ts & m' & Hchain & _).
      rewrite Hchain.
      destruct (runChain_trace _ _ _ _ _ Hchain) as (d & Htrace).
      cbn [trace] in Htrace.
      destruct (OriginalError (ctx m')).
      * unfold call, bind, outside, emit, ret.
        destruct (interfaces.SaveLogs _ _ _) as [saved w1].
        eexists _, _. split; [reflexivity|]. cbn [events snd trace].
        rewrite Htrace. cbn. reflexivity.
      * eexists _, _. split; [reflexivity|]. cbn [events].
        rewrite Htrace. reflexivity.
  - intros fuel err ->. reflexivity.
Qed.

(** ** The two cluster handles *)










(** ** The happy path *)















(** * Further properties of the create workflow *)

(** ** The transition table *)


(** ** The error a run returns *)

Lemma Create_Run_cases (fuel : nat) (c : Create) (clusterSpec : cluster.Spec)
  (forceCleanup : bool) (w : World) (o : Outcome) :
  Create_Run fuel c clusterSpec forceCleanup w = Some o ->
  (exists err w0,
     forceCleanup = true /\
     o = {| returned := Some err; context := None; executed := [];
            final_world := w0;
            events := [Invoke (DeleteBootstrapClusterC
                                 (Some (staleBootstrapCluster clusterSpec)) false)
                         (Some err)] |}) \/
  (exists w0 ts m' tail,
     runChain fuel (Some SetAndValidateTask)
       {| ctx := newCommandContext c clusterSpec; world := w0;
          trace := if forceCleanup
                   then [Invoke (DeleteBootstrapClusterC
                                   (Some (staleBootstrapCluster clusterSpec)) false)
                           None]
                   else [] |} = Some (ts, m') /\
     returned o = OriginalError (ctx m') /\
     context o = Some (ctx m') /\
     executed o = ts /\
     events o = (trace m' ++ tail)%list /\
     tail =
       match OriginalError (ctx m') with
       | Some _ =>
           [Invoke (SaveLogsC (BootstrapCluster (ctx m')))
              (fst (interfaces.SaveLogs (ClusterManager (ctx m'))
                      (BootstrapCluster (ctx m')) (world m')))]
       | None => []
       end).
Proof.
  unfold Create_Run. intros Hrun.
  assert (Hfinish : forall w0 tr0,
    match RunTask fuel SetAndValidateTask
            {| ctx := newCommandContext c clusterSpec; world := w0; trace := tr0 |}
    with
    | None => None
    | Some (err, ts, m) =>
        let m' :=
          match err with
          | Some _ =>
              snd (call (SaveLogsC (BootstrapCluster (ctx m)))
                     (interfaces.SaveLogs (ClusterManager (ctx m))
                        (BootstrapCluster (ctx m))) m)
          | None => m
          end in
        Some {| returned := err; context := Some (ctx m'); executed := ts;
                final_world := world m'; events := trace m' |}
    end = Some o ->
    exists ts m' tail,
      runChain fuel (Some SetAndValidateTask)
        {| ctx := newCommandContext c clusterSpec; world := w0; trace := tr0 |}
        = Some (ts, m') /\
      returned o = OriginalError (ctx m') /\
      context o = Some (ctx m') /\
      executed o = ts /\
      events o = (trace m' ++ tail)%list /\
      tail =
        match OriginalError (ctx m') with
        | Some _ =>
            [Invoke (SaveLogsC (BootstrapCluster (ctx m')))
               (fst (interfaces.SaveLogs (ClusterManager (ctx m'))
                       (BootstrapCluster (ctx m')) (world m')))]
        | None => []
        end).
  { intros w0 tr0 Hfin. unfold RunTask in Hfin.
    destruct (runChain fuel _ _) as [[ts m']|] eqn:Hchain; [|discriminate].
    injection Hfin as <-.
    exists ts, m',
      (match OriginalError (ctx m') with
       | Some _ =>
           [Invoke (SaveLogsC (BootstrapCluster (ctx m')))
              (fst (interfaces.SaveLogs (ClusterManager (ctx m'))
                      (BootstrapCluster (ctx m')) (world m')))]
       | None => []
       end).
    split; [reflexivity|]. cbn [returned context executed events].
    split; [reflexivity|].
    destruct (OriginalError (ctx m')).
    - unfold call, bind, outside, emit, ret.
      destruct (interfaces.SaveLogs _ _ _). cbn [fst snd ctx trace].
      repeat split.
    - repeat split. cbn. now rewrite app_nil_r. }
  destruct forceCleanup.
  - destruct (interfaces.DeleteBootstrapCluster _ _ _ _) as [[err|] w0].
    + left. injection Hrun as <-. now exists err, w0.
    + right. exists w0. now apply Hfinish.
  - right. exists w. now apply Hfinish.
Qed.

(** X2. When [Create.Run] got as far as building the command context, the
    error it returns is the first error a task handed to [SetError], and
    it returns none when no task handed over any; what saving the logs
    answers plays no part. *)
Theorem run_returns_first_error (fuel : nat) (c : Create)
  (clusterSpec : cluster.Spec) (forceCleanup : bool) (w : World) (o : Outcome) :
  Create_Run fuel c clusterSpec forceCleanup w = Some o ->
  context o <> None ->
  returned o = hd_error (observed (events o)).
Proof.
  intros Hrun Hctx.
  destruct (Create_Run_cases _ _ _ _ _ _ Hrun)
    as [(err & w0 & _ & ->)|(w0 & ts & m' & tail & Hchain & Hret & _ & _ & Hev & Htail)].
  - now contradiction Hctx.
  - destruct (runChain_errors _ _ _ _ _ Hchain) as (d & Htrace & Herr).
    cbn [ctx newCommandContext OriginalError trace] in *.
    rewrite Hret, Hev, Htrace, Herr, !observed_app.
    assert (Hpre : observed (if forceCleanup
                             then [Invoke (DeleteBootstrapClusterC
                                     (Some (staleBootstrapCluster clusterSpec)) false)
                                     None]
                             else []) = []) by now destruct forceCleanup.
    rewrite Hpre. cbn [app].
    assert (Htl : observed tail = [])
      by (subst tail; now destruct (OriginalError (ctx m'))).
    rewrite Htl, app_nil_r. reflexivity.
Qed.

(** ** Diagnostics and the report of success *)

Lemma savedLogs_app (a b : list Event) :
  savedLogs (a ++ b) = (savedLogs a ++ savedLogs b)%list.
Proof.
  induction a as [|e a IH]; [reflexivity|].
  destruct e as [c ?| | | | | | |]; try destruct c; cbn; rewrite IH; reflexivity.
Qed.

Lemma savedLogs_Validated (results : list validations.ValidationResult) :
  savedLogs (map Validated results) = [].
Proof. induction results; [reflexivity|assumption]. Qed.

Lemma successReports_app (a b : list Event) :
  successReports (a ++ b) = successReports a + successReports b.
Proof.
  induction a as [|e a IH]; [reflexivity|].
  destruct e; cbn; rewrite IH; reflexivity.
Qed.

Lemma successReports_Validated (results : list validations.ValidationResult) :
  successReports (map Validated results) = 0.
Proof. induction results; [reflexivity|assumption]. Qed.

(** no task asks for the logs *)
Lemma Run_savedLogs (t : CreateTask) (m : Machine) :
  exists d, trace (snd (Run t m)) = (trace m ++ d)%list /\ savedLogs d = [].
Proof.
  destruct t; run_task; split_trace.
  all: repeat (cbn [app savedLogs]; rewrite ?savedLogs_app, ?savedLogs_Validated).
  all: reflexivity.
Qed.

Lemma runChain_savedLogs (fuel : nat) :
  forall (next : option CreateTask) (m : Machine) ts m',
    runChain fuel next m = Some (ts, m') ->
    exists d, trace m' = (trace m ++ d)%list /\ savedLogs d = [].
Proof.
  induction fuel as [|fuel IH]; intros [t|] m ts m' Hchain.
  - discriminate.
  - cbn in Hchain. injection Hchain as <- <-. exists []. now rewrite app_nil_r.
  - rewrite runChain_step in Hchain.
    destruct (runChain fuel (fst (Run t m)) (snd (Run t m)))
      as [[ts1 m1]|] eqn:Hrest; [|discriminate].
    injection Hchain as <- <-.
    destruct (Run_savedLogs t m) as (d1 & Htr1 & Hd1).
    destruct (IH _ _ _ _ Hrest) as (d2 & Htr2 & Hd2).
    exists (d1 ++ d2)%list. split.
    + rewrite Htr2, Htr1, app_assoc. reflexivity.
    + now rewrite savedLogs_app, Hd1, Hd2.
  - rewrite runChain_done in Hchain. injection Hchain as <- <-. exists [].
    now rewrite app_nil_r.
Qed.

(** X3. [Create.Run] asks the cluster manager to save the logs exactly when
    the chain ended with a captured error: then once, after everything
    else, for the bootstrap cluster handle of the context (nil when no
    bootstrap cluster was created).  No task asks for logs, and a run
    without error never does. *)
Theorem logs_saved_iff_error (fuel : nat) (c : Create)
  (clusterSpec : cluster.Spec) (forceCleanup : bool) (w : World) (o : Outcome)
  (final : CommandContext) :
  Create_Run fuel c clusterSpec forceCleanup w = Some o ->
  context o = Some final ->
  savedLogs (events o) =
    match returned o with
    | Some _ => [BootstrapCluster final]
    | None => []
    end /\
  (returned o <> None ->
   exists before answer,
     events o =
     (before ++ [Invoke (SaveLogsC (BootstrapCluster final)) answer])%list).
Proof.
  intros Hrun Hfinal.
  destruct (Create_Run_cases _ _ _ _ _ _ Hrun)
    as [(err & w0 & _ & ->)|(w0 & ts & m' & tail & Hchain & Hret & Hctx & _ & Hev & Htail)].
  - discriminate Hfinal.
  - rewrite Hctx in Hfinal. injection Hfinal as <-.
    destruct (runChain_savedLogs _ _ _ _ _ Hchain) as (d & Htrace & Hd).
    cbn [trace] in Htrace. rewrite Hret, Hev. split.
    + rewrite Htrace, !savedLogs_app, Hd.
      assert (Hpre : savedLogs (if forceCleanup
                                then [Invoke (DeleteBootstrapClusterC
                                        (Some (staleBootstrapCluster clusterSpec))
                                        false) None]
                                else []) = []) by now destruct forceCleanup.
      rewrite Hpre. subst tail. now destruct (OriginalError (ctx m')).
    + intros Herr. subst tail.
      destruct (OriginalError (ctx m')); [|congruence].
      now eexists _, _.
Qed.

(** what a task reports, and where a chain can end without error *)
Lemma Run_success (t : CreateTask) (m : Machine) :
  (t = DeleteKindClusterTask -> OriginalError (ctx m) <> None) ->
  (exists d,
     trace (snd (Run t m)) = (trace m ++ d)%list /\
     successReports d =
       match t, OriginalError (ctx (snd (Run t m))) with
       | DeleteBootstrapClusterTask, None => 1
       | _, _ => 0
       end) /\
  (fst (Run t m) = None ->
   t = DeleteBootstrapClusterTask \/ OriginalError (ctx (snd (Run t m))) <> None) /\
  (fst (Run t m) = Some DeleteKindClusterTask ->
   OriginalError (ctx (snd (Run t m))) <> None).
Proof.
  intros Hkind. destruct t; run_task.
  all: split; [split_trace|].
  all: repeat (cbn [app successReports];
               rewrite ?successReports_app, ?successReports_Validated).
  all: simpl_ctx.
  all: try (specialize (Hkind eq_refl)).
  all: repeat match goal with
       | |- context [match OriginalError ?c with _ => _ end] =>
           destruct (OriginalError c) eqn:?
       end.
  all: try congruence.
  all: split; intros; first [discriminate | now left | right; congruence | congruence].
Qed.

Lemma runChain_success (fuel : nat) :
  forall (t : CreateTask) (m : Machine) ts m',
    (t = DeleteKindClusterTask -> OriginalError (ctx m) <> None) ->
    runChain fuel (Some t) m = Some (ts, m') ->
    exists d,
      trace m' = (trace m ++ d)%list /\
      successReports d =
        match OriginalError (ctx m') with None => 1 | Some _ => 0 end.
Proof.
  induction fuel as [|fuel IH]; intros t m ts m' Hkind Hchain; [discriminate|].
  rewrite runChain_step in Hchain.
  destruct (runChain fuel (fst (Run t m)) (snd (Run t m)))
    as [[ts1 m1]|] eqn:Hrest; [|discriminate].
  injection Hchain as <- <-.
  destruct (Run_success t m Hkind) as ((d1 & Htr1 & Hd1) & Hend & Hnext).
  destruct (fst (Run t m)) as [t1|] eqn:Hfst.
  - destruct (IH t1 _ _ _ ltac:(intros ->; now apply Hnext) Hrest)
      as (d2 & Htr2 & Hd2).
    exists (d1 ++ d2)%list. split.
    + rewrite Htr2, Htr1, app_assoc. reflexivity.
    + rewrite successReports_app, Hd1, Hd2.
      destruct t; try reflexivity.
      pose proof (DeleteBootstrapClusterTask_terminal m) as Hterm.
      rewrite Hfst in Hterm. discriminate Hterm.
  - rewrite runChain_done in Hrest. injection Hrest as <- <-.
    exists d1. split; [exact Htr1|]. rewrite Hd1.
    destruct (Hend eq_refl) as [->|Herr]; [reflexivity|].
    destruct t; try reflexivity; cbn [Run CreateTask_Task] in *.
    all: match goal with
         | E : OriginalError ?c <> None |- _ => destruct (OriginalError c)
         end; congruence.
Qed.

(** X4. [Create.Run] reports "Cluster created!" exactly once when it
    returns no error, and never when it returns one. *)
Theorem success_reported_iff_no_error (fuel : nat) (c : Create)
  (clusterSpec : cluster.Spec) (forceCleanup : bool) (w : World) (o : Outcome) :
  Create_Run fuel c clusterSpec forceCleanup w = Some o ->
  successReports (events o) =
    match returned o with None => 1 | Some _ => 0 end.
Proof.
  intros Hrun.
  destruct (Create_Run_cases _ _ _ _ _ _ Hrun)
    as [(err & w0 & _ & ->)|(w0 & ts & m' & tail & Hchain & Hret & _ & _ & Hev & Htail)].
  - reflexivity.
  - destruct (runChain_success fuel SetAndValidateTask _ _ _
                ltac:(intros Heq; discriminate Heq) Hchain)
      as (d & Htrace & Hd).
    cbn [trace] in Htrace.
    rewrite Hret, Hev, Htrace, !successReports_app, Hd.
    assert (Hpre : successReports (if forceCleanup
                                   then [Invoke (DeleteBootstrapClusterC
                                           (Some (staleBootstrapCluster clusterSpec))
                                           false) None]
                                   else []) = 0) by now destruct forceCleanup.
    rewrite Hpre. subst tail. now destruct (OriginalError (ctx m')).
Qed.

(** ** After an error *)








(** ** Failures that stop the chain *)


(** X7. When creating the workload cluster, moving the cluster management
    or installing the EKS-A components fails, the chain ends with that
    task: it records one error, leaves the bootstrap cluster handle as it
    is and does not ask the bootstrapper to delete the bootstrap cluster. *)
Theorem failure_after_bootstrap_keeps_it (t : CreateTask) (m : Machine)
  (spare : nat) :
  In t [CreateWorkloadClusterTask; MoveClusterManagementTask;
        InstallEksaComponentsTask] ->
  fst (Run t m) <> onSuccess t ->
  exists m' d err,
    runChain (1 + spare) (Some t) m = Some ([t], m') /\
    trace m' = (trace m ++ d)%list /\
    observed d = [err] /\
    deletions d = [] /\
    BootstrapCluster (ctx m') = BootstrapCluster (ctx m).
Proof.
  intros Hin Hfailed. cbn [Nat.add]. rewrite runChain_step.
  enough (Hrun : fst (Run t m) = None /\
                 exists d err,
                   trace (snd (Run t m)) = (trace m ++ d)%list /\
                   observed d = [err] /\ deletions d = [] /\
                   BootstrapCluster (ctx (snd (Run t m))) = BootstrapCluster (ctx m)).
  { destruct Hrun as (Hnext & d & err & Htrace & Hobs & Hdel & Hb).
    rewrite Hnext, runChain_done. now exists (snd (Run t m)), d, err. }
  revert Hfailed.
  destruct Hin as [<-|[<-|[<-|[]]]]; run_task; cbn [onSuccess]; intros Hfailed;
    try congruence.
  all: split; [reflexivity|]; eexists _, _.
  all: split; [rewrite <- ?app_assoc; reflexivity|].
  all: repeat split.
Qed.

(** ** What the chain deletes *)




(** ** The calls of the forward path *)






(** ** The names of the tasks *)

(** X10. The names of the tasks tell them apart, with one exception: the
    task that deletes the bootstrap cluster at the end of the forward path
    has the name of the task that deletes it after a failed bootstrap,
    "delete-kind-cluster". *)
Theorem task_names_almost_distinct (t t' : CreateTask) :
  Name DeleteBootstrapClusterTask = Name DeleteKindClusterTask /\
  (Name t = Name t' ->
   t = t' \/
   (In t [DeleteKindClusterTask; DeleteBootstrapClusterTask] /\
    In t' [DeleteKindClusterTask; DeleteBootstrapClusterTask])).
Proof.
  split; [reflexivity|].
  destruct t, t'; cbn; intros Hname;
    first [now left | discriminate Hname | right; tauto].
Qed.

(** ** The paths of a run *)

Lemma Run_successors (t : CreateTask) (m : Machine) :
  In (fst (Run t m)) (successors t).
Proof. destruct t; run_task; cbn; tauto. Qed.

Lemma runChain_paths (fuel : nat) :
  forall (t : CreateTask) (m : Machine) ts m',
    runChain fuel (Some t) m = Some (ts, m') ->
    In ts (paths fuel t).
Proof.
  induction fuel as [|fuel IH]; intros t m ts m' Hchain; [discriminate|].
  rewrite runChain_step in Hchain.
  destruct (runChain fuel (fst (Run t m)) (snd (Run t m)))
    as [[ts1 m1]|] eqn:Hrest; [|discriminate].
  injection Hchain as <- <-.
  cbn [paths]. apply in_flat_map. exists (fst (Run t m)).
  split; [apply Run_successors|].
  destruct (fst (Run t m)) as [t1|].
  - apply in_map. exact (IH _ _ _ _ Hrest).
  - rewrite runChain_done in Hrest. injection Hrest as <- <-. now left.
Qed.

Lemma paths_more_fuel (n : nat) :
  forall (t : CreateTask) (extra : nat),
    remaining t <= n -> paths (n + extra) t = paths n t.
Proof.
  induction n as [|n IH]; intros t extra Hn.
  - destruct t; cbn in Hn; lia.
  - cbn [Nat.add paths].
    assert (Hnext : forall t', In (Some t') (successors t) -> remaining t' <= n)
      by (destruct t; cbn in *; intros t' Hin;
          repeat destruct Hin as [[= <-]|Hin]; cbn; try lia; contradiction).
    induction (successors t) as [|[t'|] l IHl]; [reflexivity| |].
    + cbn [flat_map]. rewrite IH by (apply Hnext; now left).
      rewrite IHl by (intros; apply Hnext; now right). reflexivity.
    + cbn [flat_map]. rewrite IHl by (intros; apply Hnext; now right).
      reflexivity.
Qed.

(** X16. The tasks a run executes are one of seven lists: the forward path
    cut after the first, second, third, fourth or fifth stage or run to its
    end, or Validate, Create-bootstrap-cluster and Delete-kind-cluster.  So
    a run that reaches the addon stage also writes the config and deletes
    the bootstrap cluster, and Delete-kind-cluster only ever follows the
    bootstrap stage. *)
Theorem run_executes_one_of_seven_paths (fuel : nat) (c : Create)
  (clusterSpec : cluster.Spec) (forceCleanup : bool) (w : World) (o : Outcome) :
  Create_Run fuel c clusterSpec forceCleanup w = Some o ->
  context o <> None ->
  In (executed o)
    [ firstn 1 forwardPath;
      firstn 2 forwardPath;
      [SetAndValidateTask; CreateBootStrapClusterTask; DeleteKindClusterTask];
      firstn 3 forwardPath;
      firstn 4 forwardPath;
      firstn 5 forwardPath;
      forwardPath ].
Proof.
  intros Hrun Hctx.
  destruct (Create_Run_cases _ _ _ _ _ _ Hrun)
    as [(err & w0 & _ & ->)|(w0 & ts & m' & tail & Hchain & _ & _ & Hex & _)].
  - now contradiction Hctx.
  - rewrite Hex. pose proof (runChain_paths _ _ _ _ _ Hchain) as Hin.
    assert (Hfuel : exists k, k <= 8 /\ In ts (paths k SetAndValidateTask)).
    { destruct (Nat.le_gt_cases fuel 8) as [Hle|Hgt]; [now exists fuel|].
      exists 8. split; [lia|].
      replace fuel with (8 + (fuel - 8)) in Hin by lia.
      rewrite paths_more_fuel in Hin by (cbn; lia). exact Hin. }
    destruct Hfuel as (k & Hk & Hpaths).
    unfold forwardPath. cbn [firstn In].
    do 9 (destruct k as [|k]; [cbn in Hpaths; tauto|]). lia.
Qed.

End WorkflowProofs.

(** * Properties of the clusterctl wrapper *)

Section ClusterctlProofs.
Context `{Externals} `{!System}.
Import executables.

(** C10. [InitInfrastructure] returns an error when the cluster is nil or
    its name is empty, and leaves the outside as it found it: the working
    directory is not read, no config file or overrides layer is written,
    the provider is not asked for its environment and the executable is
    not run. *)
Theorem InitInfrastructure_rejects_invalid_cluster (c : Clusterctl)
  (clusterSpec : cluster.Spec) (cl : option types.Cluster)
  (provider : interfaces.Provider) (s : Sys) :
  (cl = None \/ exists named, cl = Some named /\ types.Name named = "") ->
  exists err,
    InitInfrastructure c clusterSpec cl provider s = (Some err, s) /\
    (err = Errorf "invalid cluster (nil)" \/ err = Errorf "invalid cluster name ''").
Proof.
  intros [->|(named & -> & Hname)]; unfold InitInfrastructure.
  - eexists. split; [reflexivity|]. now left.
  - rewrite Hname. cbn [String.eqb]. eexists. split; [reflexivity|]. now right.
Qed.

(** * Further properties of the clusterctl wrapper *)

Lemma bind_eq {S A B : Type} (c : State S A) (k : A -> State S B) (s : S) :
  bind c k s = k (fst (c s)) (snd (c s)).
Proof. unfold bind. destruct (c s); reflexivity. Qed.

(** ** The overrides layer *)

Lemma directories_app (a b : list Effect) :
  directories (a ++ b) = (directories a ++ directories b)%list.
Proof.
  induction a as [|e a IH]; [reflexivity|]. destruct e; cbn; now rewrite IH.
Qed.

Lemma loads_app (a b : list Effect) :
  loads (a ++ b) = (loads a ++ loads b)%list.
Proof.
  induction a as [|e a IH]; [reflexivity|]. destruct e; cbn; now rewrite IH.
Qed.

Lemma written_app (a b : list Effect) :
  written (a ++ b) = (written a ++ written b)%list.
Proof.
  induction a as [|e a IH]; [reflexivity|]. destruct e; cbn; now rewrite IH.
Qed.

Lemma executions_app (a b : list Effect) :
  executions (a ++ b) = (executions a ++ executions b)%list.
Proof.
  induction a as [|e a IH]; [reflexivity|]. destruct e; cbn; now rewrite IH.
Qed.

Lemma overrides_run_nothing (d : list Effect) :
  forallb isOverride d = true -> executions d = [].
Proof.
  induction d as [|e d IH]; [reflexivity|].
  destruct e; cbn; try discriminate; exact IH.
Qed.

(** what writing one bundle does, whatever the outside answers *)
Lemma writeInfrastructureBundle_effects (clusterSpec : cluster.Spec)
  (rootFolder : string) (bundle : types.InfrastructureBundle) (s : Sys) :
  exists d,
    effects (snd (writeInfrastructureBundle clusterSpec rootFolder (Some bundle) s))
      = (effects s ++ d)%list /\
    forallb isOverride d = true /\
    directories d = [filepath_Join [rootFolder; types.FolderName bundle]] /\
    (exists rest, types.Manifests bundle = (loads d ++ rest)%list) /\
    List.length (written d) <= List.length (loads d) /\
    (fst (writeInfrastructureBundle clusterSpec rootFolder (Some bundle) s) = None ->
     loads d = types.Manifests bundle /\
     List.length (written d) = List.length (types.Manifests bundle)).
Proof.
  unfold writeInfrastructureBundle.
  set (infraFolder := filepath_Join [rootFolder; types.FolderName bundle]).
  match goal with
  | |- context [?f (types.Manifests bundle)] => set (loop := f)
  end.
  assert (Hloop : forall ms s0,
    exists d,
      effects (snd (loop ms s0)) = (effects s0 ++ d)%list /\
      forallb isOverride d = true /\
      directories d = [] /\
      (exists rest, ms = (loads d ++ rest)%list) /\
      List.length (written d) <= List.length (loads d) /\
      (fst (loop ms s0) = None ->
       loads d = ms /\ List.length (written d) = List.length ms)).
  { induction ms as [|m ms IH]; intros s0.
    - exists []. cbn. rewrite app_nil_r. repeat split; try lia. now exists [].
    - unfold loop. cbn beta iota fix. fold loop. unfold bind, sys, ret.
      destruct (LoadManifest clusterSpec m (world s0)) as [[loaded|err] w1].
      + cbn [fst snd world effects].
        destruct (WriteFile _ _ w1) as [[err|] w2].
        * exists [LoadManifestE m;
                  WriteFileE (filepath_Join [infraFolder; cluster.Filename loaded])].
          cbn. rewrite <- app_assoc. repeat split; try lia; try discriminate.
          now exists ms.
        * match goal with
          | |- context [loop ms ?st] => remember st as s1 eqn:Hs1
          end.
          destruct (IH s1)
            as (d & Heff & Hov & Hdir & (rest & Hrest) & Hlen & Hok).
          exists (LoadManifestE m
                    :: WriteFileE (filepath_Join [infraFolder; cluster.Filename loaded])
                    :: d).
          split.
          { rewrite Heff, Hs1. cbn [effects]. now rewrite <- !app_assoc. }
          cbn. repeat split; try assumption; try lia.
          -- exists rest. now rewrite Hrest.
          -- match goal with
             | Hn : fst _ = None |- _ => destruct (Hok Hn) as (Hl & _)
             end. now rewrite Hl.
          -- match goal with
             | Hn : fst _ = None |- _ => destruct (Hok Hn) as (_ & Hw)
             end. now rewrite Hw.
      + exists [LoadManifestE m]. cbn. repeat split; try lia; try discriminate.
        now exists ms. }
  unfold bind, sys, ret.
  destruct (MkdirAll infraFolder (world s)) as [[err|] w1].
  - exists [MkdirAllE infraFolder]. cbn. repeat split; try lia; try discriminate.
    now exists (types.Manifests bundle).
  - destruct (Hloop (types.Manifests bundle)
                {| world := w1; effects := effects s ++ [MkdirAllE infraFolder] |})
      as (d & Heff & Hov & Hdir & Hrest & Hlen & Hok).
    exists (MkdirAllE infraFolder :: d).
    split; [cbn [effects] in Heff; now rewrite Heff, <- app_assoc|].
    cbn. rewrite Hdir. repeat split; try assumption; now apply Hok.
Qed.

(** what writing the overrides layer does *)
Lemma buildOverridesLayer_effects (clusterSpec : cluster.Spec)
  (clusterName : string) (provider : interfaces.Provider) (s : Sys) :
  let bundle := cluster.VersionsBundle clusterSpec in
  exists d,
    effects (snd (buildOverridesLayer clusterSpec clusterName provider s))
      = (effects s ++ d)%list /\
    forallb isOverride d = true /\
    (fst (buildOverridesLayer clusterSpec clusterName provider s) = None ->
     List.length (directories d) =
       (if cluster.ExternalEtcdConfiguration clusterSpec then 6 else 4) /\
     loads d =
       (capiManifests (v1alpha1.Bootstrap bundle)
          ++ capiManifests (v1alpha1.ClusterAPI bundle)
          ++ capiManifests (v1alpha1.ControlPlane bundle)
          ++ (if cluster.ExternalEtcdConfiguration clusterSpec
              then capiManifests (v1alpha1.ExternalEtcdBootstrap bundle)
                     ++ capiManifests (v1alpha1.ExternalEtcdController bundle)
              else [])
          ++ types.Manifests
               (interfaces.GetInfrastructureBundle provider clusterSpec))%list /\
     List.length (written d) = List.length (loads d)).
Proof.
  intros bundle. unfold buildOverridesLayer. fold bundle.
  set (prefix := filepath_Join [clusterName; generatedDir; overridesDir]).
  match goal with
  | |- context [fst (?f ?bs s)] => set (loop := f); set (bundles := bs)
  end.
  assert (Hloop : forall bs s0,
    exists d,
      effects (snd (loop bs s0)) = (effects s0 ++ d)%list /\
      forallb isOverride d = true /\
      (fst (loop bs s0) = None ->
       List.length (directories d) = List.length bs /\
       loads d = flat_map types.Manifests bs /\
       List.length (written d) = List.length (loads d))).
  { induction bs as [|b bs IH]; intros s0.
    - exists []. cbn. rewrite app_nil_r. repeat split.
    - unfold loop. cbn beta iota fix. fold loop. rewrite !bind_eq.
      destruct (writeInfrastructureBundle_effects clusterSpec prefix b s0)
        as (d1 & Heff1 & Hov1 & Hdir1 & _ & _ & Hok1).
      destruct (writeInfrastructureBundle clusterSpec prefix (Some b) s0)
        as [[err|] s1]; unfold ret; cbn beta iota delta [fst snd] in *.
      + exists d1. split; [exact Heff1|]. split; [exact Hov1|].
        intros Hnone; discriminate Hnone.
      + destruct (IH s1) as (d2 & Heff2 & Hov2 & Hok2).
        destruct (Hok1 eq_refl) as (Hl1 & Hw1).
        exists (d1 ++ d2)%list. split; [now rewrite Heff2, Heff1, app_assoc|].
        split; [now rewrite forallb_app, Hov1, Hov2|].
        intros Hnone. destruct (Hok2 Hnone) as (Hdir2 & Hl2 & Hw2).
        rewrite directories_app, loads_app, written_app, !length_app.
        rewrite Hdir1, Hdir2, Hl1, Hl2, Hw1. cbn [flat_map List.length].
        rewrite Hl2 in Hw2. rewrite Hw2. repeat split. }
  destruct (Hloop bundles s) as (d & Heff & Hov & Hok).
  exists d. split; [exact Heff|]. split; [exact Hov|].
  intros Hnone. destruct (Hok Hnone) as (Hdir & Hl & Hw).
  rewrite Hdir, Hw, Hl. subst bundles.
  destruct (cluster.ExternalEtcdConfiguration clusterSpec); cbn;
    rewrite ?app_nil_r; repeat split.
Qed.

(** ** The configuration and the command *)

(** what [buildConfig] does, whatever the outside answers: it reads the
    working directory, writes the config file from the template, and then
    writes the overrides layer; it stops at the first failure and runs no
    command *)
Lemma buildConfig_effects (c : Clusterctl) (clusterSpec : cluster.Spec)
  (clusterName : string) (provider : interfaces.Provider) (s : Sys) :
  let bundle := cluster.VersionsBundle clusterSpec in
  exists d,
    effects (snd (buildConfig c clusterSpec clusterName provider s))
      = (effects s ++ d)%list /\
    ((d = [GetwdE] /\
      exists err,
        fst (buildConfig c clusterSpec clusterName provider s) = inr err /\
        fst (Getwd (world s)) = inr err) \/
     (d = [GetwdE; WriteToFileE clusterctlConfigFile] /\
      exists err,
        fst (buildConfig c clusterSpec clusterName provider s) =
        inr (Errorf ("error generating configuration file for clusterctl: "
                       ++ Error ValidationError_Error err))) \/
     (exists overrides,
        d = GetwdE :: WriteToFileE clusterctlConfigFile :: overrides /\
        forallb isOverride overrides = true /\
        ((exists err,
            fst (buildConfig c clusterSpec clusterName provider s) = inr err) \/
         (exists filePath,
            fst (buildConfig c clusterSpec clusterName provider s) =
            inl {| configFile := filePath;
                   bootstrapVersion :=
                     "kubeadm:" ++ v1alpha1.Version (v1alpha1.Bootstrap bundle);
                   controlPlaneVersion :=
                     "kubeadm:" ++ v1alpha1.Version (v1alpha1.ControlPlane bundle);
                   coreVersion :=
                     "cluster-api:" ++ v1alpha1.Version (v1alpha1.ClusterAPI bundle);
                   etcdadmBootstrapVersion :=
                     "etcdadm-bootstrap:"
                       ++ v1alpha1.Version (v1alpha1.ExternalEtcdBootstrap bundle);
                   etcdadmControllerVersion :=
                     "etcdadm-controller:"
                       ++ v1alpha1.Version (v1alpha1.ExternalEtcdController bundle) |} /\
            List.length (directories overrides) =
              (if cluster.ExternalEtcdConfiguration clusterSpec then 6 else 4))))).
Proof.
  intros bundle. unfold buildConfig, bind, sys, ret. fold bundle.
  destruct (Getwd (world s)) as [[path|err] w1];
    cbn beta iota zeta delta [fst snd world effects].
  - destruct (WriteToFile _ _ _ _ w1) as [[filePath|err] w2];
      cbn beta iota zeta delta [fst snd world effects].
    + match goal with
      | |- context [buildOverridesLayer clusterSpec clusterName provider ?st] =>
          destruct (buildOverridesLayer_effects clusterSpec clusterName provider st)
            as (d & Heff & Hov & Hok);
          destruct (buildOverridesLayer clusterSpec clusterName provider st)
            as [[err|] s2]
      end; cbn beta iota zeta delta [fst snd world effects] in *.
      * exists (GetwdE :: WriteToFileE clusterctlConfigFile :: d).
        split; [now rewrite Heff, <- !app_assoc|].
        right; right. exists d. repeat split; [exact Hov|]. left. now exists err.
      * exists (GetwdE :: WriteToFileE clusterctlConfigFile :: d).
        split; [now rewrite Heff, <- !app_assoc|].
        right; right. exists d. repeat split; [exact Hov|]. right.
        exists filePath. split; [reflexivity|]. now apply Hok.
    + exists [GetwdE; WriteToFileE clusterctlConfigFile].
      split; [now rewrite <- app_assoc|]. right; left. split; [reflexivity|].
      now exists err.
  - exists [GetwdE].
    split; [reflexivity|]. left. split; [reflexivity|]. now exists err.
Qed.

(** the arguments of [clusterctl init], for the config file [filePath] *)
Lemma InitInfrastructure_effects (c : Clusterctl) (clusterSpec : cluster.Spec)
  (named : types.Cluster) (provider : interfaces.Provider) (s : Sys) :
  types.Name named <> "" ->
  let bundle := cluster.VersionsBundle clusterSpec in
  exists d,
    effects (snd (InitInfrastructure c clusterSpec (Some named) provider s))
      = (effects s ++ d)%list /\
    hd_error d = Some GetwdE /\
    ((fst (InitInfrastructure c clusterSpec (Some named) provider s) <> None /\
      executions d = []) \/
     (exists overrides env filePath,
        d = (GetwdE :: WriteToFileE clusterctlConfigFile :: overrides
               ++ [EnvMapE;
                   ExecuteWithEnvE env
                     ([ "init";
                        "--core";
                        ("cluster-api:" ++ v1alpha1.Version (v1alpha1.ClusterAPI bundle))%string;
                        "--bootstrap";
                        ("kubeadm:" ++ v1alpha1.Version (v1alpha1.Bootstrap bundle))%string;
                        "--control-plane";
                        ("kubeadm:" ++ v1alpha1.Version (v1alpha1.ControlPlane bundle))%string;
                        "--infrastructure";
                        (interfaces.Name provider ++ ":"
                           ++ interfaces.Version provider clusterSpec)%string;
                        "--config"; filePath ]
                        ++ (if cluster.ExternalEtcdConfiguration clusterSpec
                            then [ "--bootstrap";
                                   ("etcdadm-bootstrap:"
                                      ++ v1alpha1.Version
                                           (v1alpha1.ExternalEtcdBootstrap bundle))%string;
                                   "--bootstrap";
                                   ("etcdadm-controller:"
                                      ++ v1alpha1.Version
                                           (v1alpha1.ExternalEtcdController bundle))%string ]
                            else [])
                        ++ (if String.eqb (types.KubeconfigFile named) ""
                            then []
                            else ["--kubeconfig"; types.KubeconfigFile named]))])%list /\
        forallb isOverride overrides = true /\
        List.length (directories overrides) =
          (if cluster.ExternalEtcdConfiguration clusterSpec then 6 else 4))).
Proof.
  intros Hname bundle. unfold InitInfrastructure.
  apply String.eqb_neq in Hname. rewrite Hname.
  unfold bind.
  destruct (buildConfig_effects c clusterSpec (types.Name named) provider s)
    as (d & Heff & Hcases).
  fold bundle in Hcases.
  destruct (buildConfig c clusterSpec (types.Name named) provider s)
    as [[config|err] s1]; cbn [fst snd] in *.
  - destruct Hcases as [(_ & e & He & _)|[(_ & e & He)|(overrides & -> & Hov & Hres)]];
      try discriminate He.
    destruct Hres as [(e & He)|(filePath & Hcfg & Hdirs)]; [discriminate He|].
    injection Hcfg as ->.
    cbn [coreVersion bootstrapVersion controlPlaneVersion configFile
         etcdadmBootstrapVersion etcdadmControllerVersion].
    unfold sys, ret.
    destruct (interfaces.EnvMap provider (world s1)) as [[envMap|err] w2];
      cbn beta iota zeta delta [fst snd world effects].
    + match goal with
      | |- context [ExecuteWithEnv (executable c) envMap ?ps ?w] =>
          destruct (ExecuteWithEnv (executable c) envMap ps w) as [[out|err] w3]
      end; cbn beta iota zeta delta [fst snd world effects].
      all: eexists; split;
        [rewrite Heff, <- !app_assoc; cbn [app]; reflexivity|];
        split; [reflexivity|]; right; exists overrides, envMap, filePath.
      all: repeat split; try assumption.
      all: destruct (cluster.ExternalEtcdConfiguration clusterSpec);
        destruct (String.eqb (types.KubeconfigFile named) "");
        cbn [app]; rewrite <- ?app_assoc; reflexivity.
    + exists (GetwdE :: WriteToFileE clusterctlConfigFile :: overrides ++ [EnvMapE])%list.
      split; [rewrite Heff, <- !app_assoc; reflexivity|].
      split; [reflexivity|]. left. split; [discriminate|].
      cbn [executions]. rewrite executions_app.
      now rewrite (overrides_run_nothing _ Hov).
  - unfold ret. cbn [fst snd]. exists d. split; [exact Heff|].
    assert (Hd : hd_error d = Some GetwdE /\ executions d = []).
    { destruct Hcases as [(-> & _)|[(-> & _)|(overrides & -> & Hov & _)]];
        split; try reflexivity.
      cbn [executions]. now apply overrides_run_nothing. }
    split; [apply Hd|]. left. split; [discriminate|apply Hd].
Qed.

(** X11. For a cluster with a name, [InitInfrastructure] first reads the
    working directory.  It runs the executable at most once and as the last
    thing it does: only after the config file was written, the overrides
    layer was written in full (four folders, six with external etcd) and
    the provider gave its environment.  In every other case it returns an
    error and has run nothing. *)
Theorem InitInfrastructure_runs_clusterctl_last (c : Clusterctl)
  (clusterSpec : cluster.Spec) (named : types.Cluster)
  (provider : interfaces.Provider) (s : Sys) :
  types.Name named <> "" ->
  exists d,
    effects (snd (InitInfrastructure c clusterSpec (Some named) provider s))
      = (effects s ++ d)%list /\
    hd_error d = Some GetwdE /\
    ((fst (InitInfrastructure c clusterSpec (Some named) provider s) <> None /\
      executions d = []) \/
     (exists before env params,
        d = (before ++ [EnvMapE; ExecuteWithEnvE env params])%list /\
        executions before = [] /\
        In (WriteToFileE clusterctlConfigFile) before /\
        List.length (directories before) =
          (if cluster.ExternalEtcdConfiguration clusterSpec then 6 else 4))).
Proof.
  intros Hname.
  destruct (InitInfrastructure_effects c clusterSpec named provider s Hname)
    as (d & Heff & Hhd & [Hnone|(overrides & env & filePath & -> & Hov & Hdirs)]).
  - exists d. split; [exact Heff|]. split; [exact Hhd|]. now left.
  - eexists. split; [exact Heff|]. split; [reflexivity|]. right.
    exists (GetwdE :: WriteToFileE clusterctlConfigFile :: overrides).
    eexists _, _. split; [reflexivity|].
    cbn [executions directories In]. split; [now apply overrides_run_nothing|].
    split; [tauto|exact Hdirs].
Qed.


(** X13. [buildOverridesLayer] only creates folders, loads manifests and
    writes files.  When it returns no error it has created four folders
    (six with external etcd), and it has loaded and written the components
    and the metadata manifest of the kubeadm bootstrap, the core cluster-api
    and the kubeadm control plane bundle, of the two etcdadm bundles with
    external etcd, and then the manifests of the provider, in this order. *)
Theorem buildOverridesLayer_writes_bundles (clusterSpec : cluster.Spec)
  (clusterName : string) (provider : interfaces.Provider) (s : Sys) :
  let bundle := cluster.VersionsBundle clusterSpec in
  exists d,
    effects (snd (buildOverridesLayer clusterSpec clusterName provider s))
      = (effects s ++ d)%list /\
    forallb isOverride d = true /\
    (fst (buildOverridesLayer clusterSpec clusterName provider s) = None ->
     List.length (directories d) =
       (if cluster.ExternalEtcdConfiguration clusterSpec then 6 else 4) /\
     loads d =
       (capiManifests (v1alpha1.Bootstrap bundle)
          ++ capiManifests (v1alpha1.ClusterAPI bundle)
          ++ capiManifests (v1alpha1.ControlPlane bundle)
          ++ (if cluster.ExternalEtcdConfiguration clusterSpec
              then capiManifests (v1alpha1.ExternalEtcdBootstrap bundle)
                     ++ capiManifests (v1alpha1.ExternalEtcdController bundle)
              else [])
          ++ types.Manifests
               (interfaces.GetInfrastructureBundle provider clusterSpec))%list /\
     List.length (written d) = List.length (loads d)).
Proof.
  exact (buildOverridesLayer_effects clusterSpec clusterName provider s).
Qed.


(** X15. [writeInfrastructureBundle] does nothing for a nil bundle.  For a
    bundle it creates the folder of the bundle under the root folder, and
    then loads and writes the manifests one after the other: the manifests
    loaded are a prefix of those of the bundle, no file is written that was
    not loaded, and when no error is returned every manifest of the bundle
    was loaded and written. *)
Theorem writeInfrastructureBundle_in_order (clusterSpec : cluster.Spec)
  (rootFolder : string) (bundle : types.InfrastructureBundle) (s : Sys) :
  writeInfrastructureBundle clusterSpec rootFolder None s = (None, s) /\
  exists d,
    effects (snd (writeInfrastructureBundle clusterSpec rootFolder (Some bundle) s))
      = (effects s ++ d)%list /\
    forallb isOverride d = true /\
    directories d = [filepath_Join [rootFolder; types.FolderName bundle]] /\
    (exists rest, types.Manifests bundle = (loads d ++ rest)%list) /\
    List.length (written d) <= List.length (loads d) /\
    (fst (writeInfrastructureBundle clusterSpec rootFolder (Some bundle) s) = None ->
     loads d = types.Manifests bundle /\
     List.length (written d) = List.length (types.Manifests bundle)).
Proof.
  split; [reflexivity|].
  exact (writeInfrastructureBundle_effects clusterSpec rootFolder bundle s).
Qed.

(** X17. [MoveManagement] and [GetWorkloadKubeconfig] check nothing about
    the clusters they are given: each runs the executable exactly once,
    without an environment, and does nothing else to the outside.  The
    move always passes the kubeconfig of the target, also an empty one, and
    the kubeconfig of the source only when it is not empty.  Each returns
    an error exactly when the command failed. *)
Theorem plain_commands_run_once (c : Clusterctl) (from to cl : types.Cluster)
  (clusterName : string) (s : Sys) :
  (exists params,
     effects (snd (MoveManagement c from to s))
       = (effects s ++ [ExecuteE params])%list /\
     world (snd (MoveManagement c from to s))
       = snd (Execute (executable c) params (world s)) /\
     firstn 3 params = ["move"; "--to-kubeconfig"; types.KubeconfigFile to] /\
     skipn 5 params =
       (if String.eqb (types.KubeconfigFile from) "" then []
        else ["--kubeconfig"; types.KubeconfigFile from]) /\
     (fst (MoveManagement c from to s) = None <->
      exists out, fst (Execute (executable c) params (world s)) = inl out)) /\
  (exists params,
     effects (snd (GetWorkloadKubeconfig c clusterName cl s))
       = (effects s ++ [ExecuteE params])%list /\
     world (snd (GetWorkloadKubeconfig c clusterName cl s))
       = snd (Execute (executable c) params (world s)) /\
     firstn 5 params
       = ["get"; "kubeconfig"; clusterName; "--kubeconfig";
          types.KubeconfigFile cl] /\
     forall out,
       fst (GetWorkloadKubeconfig c clusterName cl s) = inl out <->
       fst (Execute (executable c) params (world s)) = inl out).
Proof.
  split.
  - set (base := ["move"; "--to-kubeconfig"; types.KubeconfigFile to;
                  "--namespace"; EksaSystemNamespace]).
    set (params := if String.eqb (types.KubeconfigFile from) "" then base
                   else (base ++ ["--kubeconfig"; types.KubeconfigFile from])%list).
    exists params.
    unfold MoveManagement, bind, sys, ret. cbn beta iota zeta.
    fold base. fold params.
    assert (Hfirst : firstn 3 params
                     = ["move"; "--to-kubeconfig"; types.KubeconfigFile to])
      by (unfold params; now destruct (String.eqb (types.KubeconfigFile from) "")).
    assert (Hrest : skipn 5 params =
                    if String.eqb (types.KubeconfigFile from) "" then []
                    else ["--kubeconfig"; types.KubeconfigFile from])
      by (unfold params; now destruct (String.eqb (types.KubeconfigFile from) "")).
    destruct (Execute (executable c) params (world s)) as [[out|err] w'];
      cbn [fst snd effects world].
    + repeat (split; [solve [reflexivity|assumption]|]).
      split; [intros _; now exists out|reflexivity].
    + repeat (split; [solve [reflexivity|assumption]|]).
      split; [discriminate|intros (out & Hout); discriminate Hout].
  - set (params := ["get"; "kubeconfig"; clusterName; "--kubeconfig";
                    types.KubeconfigFile cl; "--namespace"; EksaSystemNamespace]).
    exists params.
    unfold GetWorkloadKubeconfig, bind, sys, ret. cbn beta iota zeta.
    fold params.
    destruct (Execute (executable c) params (world s)) as [[out|err] w'];
      cbn [fst snd effects world].
    + repeat (split; [reflexivity|]). intros out'. tauto.
    + repeat (split; [reflexivity|]). intros out'.
      split; intros Hout; discriminate Hout.
Qed.

End ClusterctlProofs.

(** * The properties on the scripted outside *)

Section Scripted.
#[local] Existing Instance demo.externals.
#[local] Existing Instance demo.writes.
Import task workflows.


Lemma first_error_wins_witness :
  OriginalError (newCommandContext (demo.create []) demo.spec) = None /\
  OriginalError
    (fold_left (fun c e => SetError e c)
       [Errorf "quota exceeded"; Errorf "kind delete failed"; Errorf "no logs"]
       (newCommandContext (demo.create []) demo.spec))
  = Some (Errorf "quota exceeded").
Proof.
  split; [reflexivity|].
  apply (SetError_first_error_wins
           (newCommandContext (demo.create []) demo.spec)
           (Errorf "quota exceeded")
           [Errorf "kind delete failed"; Errorf "no logs"]).
  reflexivity.
Defined.

(** the addon stage with a GitOps installation that fails *)
Lemma addon_failure_witness :
  installGitOpsOutcome (demo.start ["InstallGitOps"])
    = Some (Errorf "InstallGitOps failed") /\
  fst (Run InstallAddonManagerTask (demo.start ["InstallGitOps"]))
    = Some WriteClusterConfigTask /\
  OriginalError (ctx (snd (Run InstallAddonManagerTask (demo.start ["InstallGitOps"]))))
    = OriginalError (ctx (demo.start ["InstallGitOps"])).
Proof.
  assert (Hfail : installGitOpsOutcome (demo.start ["InstallGitOps"])
                  = Some (Errorf "InstallGitOps failed")) by reflexivity.
  split; [exact Hfail|].
  destruct (addon_failure_is_isolated (demo.start ["InstallGitOps"])
              (Errorf "InstallGitOps failed") Hfail)
    as (Hnext & _ & Herr & _).
  split; [exact Hnext|exact Herr].
Defined.

(** three checks of which one fails, registered in two orders *)
Lemma validation_runner_witness :
  let vs := [demo.check ["ntp"] "dns"; demo.check ["ntp"] "ntp";
             demo.check ["ntp"] "datastore"] in
  let results :=
    [ {| validations.Name := "dns"; validations.Err := None |};
      {| validations.Name := "ntp"; validations.Err := Some (Errorf "ntp failed") |};
      {| validations.Name := "datastore"; validations.Err := None |} ] in
  let results' := rev results in
  validations.Run (validations.Register validations.NewRunner vs) 0
    = (Some (ValidationError ["ntp"]), results, 3) /\
  Forall validations.independent vs /\
  Permutation vs (rev vs) /\
  validations.Run (validations.Register validations.NewRunner (rev vs)) 7
    = (Some (ValidationError ["ntp"]), results', 10) /\
  Permutation (validations.failedNames results) (validations.failedNames results').
Proof.
  intros vs results results'.
  assert (Hrun : validations.Run (validations.Register validations.NewRunner vs) 0
                 = (Some (ValidationError ["ntp"]), results, 3)) by reflexivity.
  assert (Hind : Forall validations.independent vs)
    by (repeat constructor).
  assert (Hperm : Permutation vs (rev vs)) by apply Permutation_rev.
  assert (Hrun' : validations.Run
                    (validations.Register validations.NewRunner (rev vs)) 7
                  = (Some (ValidationError ["ntp"]), results', 10)) by reflexivity.
  destruct (validation_runner_aggregates vs 0 _ _ _ Hrun)
    as (_ & _ & _ & _ & Horder).
  destruct (Horder (rev vs) 7 _ _ _ Hind Hperm Hrun') as (Hnames & _).
  repeat split; assumption.
Defined.




(** a forced cleanup that fails *)
Lemma force_cleanup_witness :
  fst (interfaces.DeleteBootstrapCluster
         (bootstrapper (demo.create ["DeleteBootstrapCluster"]))
         (Some (staleBootstrapCluster demo.spec)) false 0)
    = Some (Errorf "DeleteBootstrapCluster failed") /\
  Create_Run 8 (demo.create ["DeleteBootstrapCluster"]) demo.spec true 0 =
  Some {| returned := Some (Errorf "DeleteBootstrapCluster failed");
          context := None;
          executed := [];
          final_world := 1;
          events := [Invoke (DeleteBootstrapClusterC
                               (Some (staleBootstrapCluster demo.spec)) false)
                       (Some (Errorf "DeleteBootstrapCluster failed"))] |}.
Proof.
  split; [reflexivity|].
  destruct (force_cleanup_precedes_chain
              (demo.create ["DeleteBootstrapCluster"]) demo.spec 0 0)
    as (_ & _ & Habort).
  exact (Habort 8 (Errorf "DeleteBootstrapCluster failed") eq_refl).
Defined.


(** [clusterctl init] without a cluster, and for a cluster without a name *)
Lemma init_rejects_witness :
  (exists err,
     demo.init [] None = (Some err, demo.idle) /\
     (err = Errorf "invalid cluster (nil)" \/
      err = Errorf "invalid cluster name ''")) /\
  (exists err,
     demo.init [] (Some {| types.Name := ""; types.KubeconfigFile := "kubeconfig" |})
       = (Some err, demo.idle) /\
     (err = Errorf "invalid cluster (nil)" \/
      err = Errorf "invalid cluster name ''")).
Proof.
  split.
  - apply (@InitInfrastructure_rejects_invalid_cluster
             demo.externals (demo.system [])
             (demo.clusterctl []) demo.spec None (demo.theProvider []) demo.idle).
    now left.
  - apply (@InitInfrastructure_rejects_invalid_cluster
             demo.externals (demo.system [])
             (demo.clusterctl []) demo.spec
             (Some {| types.Name := ""; types.KubeconfigFile := "kubeconfig" |})
             (demo.theProvider []) demo.idle).
    right. eexists. split; reflexivity.
Defined.

(** a run in which installing cluster-api on the bootstrap cluster fails,
    and then the deletion of the bootstrap cluster as well *)
Lemma run_returns_first_error_witness :
  exists o,
    Create_Run 8 (demo.create ["InstallCapi"; "DeleteBootstrapCluster"])
      demo.spec false 0 = Some o /\
    context o <> None /\
    observed (events o)
      = [Errorf "InstallCapi failed"; Errorf "DeleteBootstrapCluster failed"] /\
    returned o = hd_error (observed (events o)).
Proof.
  destruct (Create_Run 8 (demo.create ["InstallCapi"; "DeleteBootstrapCluster"])
              demo.spec false 0) as [o|] eqn:Hrun;
    [|vm_compute in Hrun; discriminate Hrun].
  assert (Hctx : context o <> None)
    by (vm_compute in Hrun; injection Hrun as <-; discriminate).
  exists o. split; [reflexivity|]. split; [exact Hctx|].
  split; [vm_compute in Hrun; injection Hrun as <-; reflexivity|].
  exact (run_returns_first_error _ _ _ _ _ _ Hrun Hctx).
Defined.

Lemma logs_saved_witness :
  exists o final,
    Create_Run 8 (demo.create ["InstallCapi"]) demo.spec false 0 = Some o /\
    context o = Some final /\
    BootstrapCluster final = Some demo.kind /\
    savedLogs (events o) =
      match returned o with
      | Some _ => [BootstrapCluster final]
      | None => []
      end.
Proof.
  destruct (Create_Run 8 (demo.create ["InstallCapi"]) demo.spec false 0)
    as [o|] eqn:Hrun; [|vm_compute in Hrun; discriminate Hrun].
  destruct (context o) as [final|] eqn:Hctx;
    [|vm_compute in Hrun; injection Hrun as <-; discriminate Hctx].
  exists o, final. split; [reflexivity|]. split; [exact Hctx|].
  split; [vm_compute in Hrun; injection Hrun as <-;
          injection Hctx as <-; reflexivity|].
  exact (proj1 (logs_saved_iff_error _ _ _ _ _ _ _ Hrun Hctx)).
Defined.

Lemma success_reported_witness :
  exists o,
    Create_Run 8 (demo.create []) demo.spec true 0 = Some o /\
    returned o = None /\
    successReports (events o) =
      match returned o with None => 1 | Some _ => 0 end.
Proof.
  destruct (Create_Run 8 (demo.create []) demo.spec true 0)
    as [o|] eqn:Hrun; [|vm_compute in Hrun; discriminate Hrun].
  exists o. split; [reflexivity|].
  split; [vm_compute in Hrun; injection Hrun as <-; reflexivity|].
  exact (success_reported_iff_no_error _ _ _ _ _ _ Hrun).
Defined.



Lemma failure_after_bootstrap_witness :
  In MoveClusterManagementTask
    [CreateWorkloadClusterTask; MoveClusterManagementTask;
     InstallEksaComponentsTask] /\
  fst (Run MoveClusterManagementTask (demo.start ["MoveCapi"]))
    <> onSuccess MoveClusterManagementTask /\
  exists m' d err,
    runChain (1 + 0) (Some MoveClusterManagementTask) (demo.start ["MoveCapi"])
      = Some ([MoveClusterManagementTask], m') /\
    trace m' = (trace (demo.start ["MoveCapi"]) ++ d)%list /\
    observed d = [err] /\
    deletions d = [] /\
    BootstrapCluster (ctx m') = BootstrapCluster (ctx (demo.start ["MoveCapi"])).
Proof.
  assert (Hin : In MoveClusterManagementTask
                  [CreateWorkloadClusterTask; MoveClusterManagementTask;
                   InstallEksaComponentsTask]) by (cbn; tauto).
  assert (Hfailed : fst (Run MoveClusterManagementTask (demo.start ["MoveCapi"]))
                    <> onSuccess MoveClusterManagementTask)
    by (intros Heq; vm_compute in Heq; discriminate Heq).
  split; [exact Hin|]. split; [exact Hfailed|].
  exact (failure_after_bootstrap_keeps_it MoveClusterManagementTask
           (demo.start ["MoveCapi"]) 0 Hin Hfailed).
Defined.



Lemma task_names_witness :
  Name DeleteKindClusterTask = Name DeleteBootstrapClusterTask /\
  DeleteKindClusterTask <> DeleteBootstrapClusterTask /\
  (DeleteKindClusterTask = DeleteBootstrapClusterTask \/
   (In DeleteKindClusterTask [DeleteKindClusterTask; DeleteBootstrapClusterTask] /\
    In DeleteBootstrapClusterTask
      [DeleteKindClusterTask; DeleteBootstrapClusterTask])).
Proof.
  split; [reflexivity|]. split; [discriminate|].
  exact (proj2 (task_names_almost_distinct DeleteKindClusterTask
                  DeleteBootstrapClusterTask) eq_refl).
Defined.

Lemma run_paths_witness :
  exists o,
    Create_Run 8 (demo.create ["CreateEKSAResources"]) demo.spec false 0 = Some o /\
    context o <> None /\
    executed o = firstn 5 forwardPath /\
    In (executed o)
      [ firstn 1 forwardPath;
        firstn 2 forwardPath;
        [SetAndValidateTask; CreateBootStrapClusterTask; DeleteKindClusterTask];
        firstn 3 forwardPath;
        firstn 4 forwardPath;
        firstn 5 forwardPath;
        forwardPath ].
Proof.
  destruct (Create_Run 8 (demo.create ["CreateEKSAResources"]) demo.spec false 0)
    as [o|] eqn:Hrun; [|vm_compute in Hrun; discriminate Hrun].
  assert (Hctx : context o <> None)
    by (vm_compute in Hrun; injection Hrun as <-; discriminate).
  exists o. split; [reflexivity|]. split; [exact Hctx|].
  split; [vm_compute in Hrun; injection Hrun as <-; reflexivity|].
  exact (run_executes_one_of_seven_paths _ _ _ _ _ _ Hrun Hctx).
Defined.

(** [clusterctl init] for the kind cluster of the scripted outside *)
Lemma init_runs_last_witness :
  types.Name demo.kind <> "" /\
  fst (demo.init [] (Some demo.kind)) = None /\
  exists d,
    executables.effects (snd (demo.init [] (Some demo.kind)))
      = (executables.effects demo.idle ++ d)%list /\
    hd_error d = Some executables.GetwdE.
Proof.
  assert (Hname : types.Name demo.kind <> "") by discriminate.
  split; [exact Hname|]. split; [reflexivity|].
  destruct (@InitInfrastructure_runs_clusterctl_last demo.externals
              (demo.system []) (demo.clusterctl []) demo.spec demo.kind
              (demo.theProvider []) demo.idle Hname)
    as (d & Heff & Hhd & _).
  exists d. split; [exact Heff|exact Hhd].
Defined.



(** the overrides layer of the scripted outside: three bundles of two
    manifests each and the one manifest of the provider *)
Lemma overrides_layer_witness :
  fst (@executables.buildOverridesLayer demo.externals (demo.system [])
         demo.spec "dev" (demo.theProvider []) demo.idle) = None /\
  exists d,
    executables.effects
      (snd (@executables.buildOverridesLayer demo.externals (demo.system [])
              demo.spec "dev" (demo.theProvider []) demo.idle))
      = (executables.effects demo.idle ++ d)%list /\
    List.length (directories d) = 4 /\
    List.length (written d) = 7.
Proof.
  split; [reflexivity|].
  destruct (@buildOverridesLayer_writes_bundles demo.externals (demo.system [])
              demo.spec "dev" (demo.theProvider []) demo.idle)
    as (d & Heff & _ & Hok).
  destruct (Hok eq_refl) as (Hdirs & Hloads & Hwritten).
  exists d. split; [exact Heff|]. split; [exact Hdirs|].
  rewrite Hwritten, Hloads. reflexivity.
Defined.

Lemma bundle_in_order_witness :
  fst (@executables.writeInfrastructureBundle demo.externals (demo.system [])
         demo.spec "overrides" (Some demo.infrastructureBundle) demo.idle) = None /\
  exists d,
    executables.effects
      (snd (@executables.writeInfrastructureBundle demo.externals (demo.system [])
              demo.spec "overrides" (Some demo.infrastructureBundle) demo.idle))
      = (executables.effects demo.idle ++ d)%list /\
    loads d = ["infrastructure-components.yaml"] /\
    List.length (written d) = 1.
Proof.
  split; [reflexivity|].
  destruct (@writeInfrastructureBundle_in_order demo.externals (demo.system [])
              demo.spec "overrides" demo.infrastructureBundle demo.idle)
    as (_ & d & Heff & _ & _ & _ & _ & Hok).
  destruct (Hok eq_refl) as (Hloads & Hwritten).
  exists d. split; [exact Heff|]. split; [exact Hloads|exact Hwritten].
Defined.

End Scripted.

Section ScriptedFullDisk.
#[local] Existing Instance demo.externals.
#[local] Existing Instance demo.fullDisk.
Import task workflows.

(** the write stage on a full disk, with a deletion that succeeds *)
Lemma write_config_witness :
  writeClusterConfigOutcome (demo.start []) = Some (Errorf "WriteClusterConfig failed") /\
  OriginalError (ctx (demo.start [])) = None /\
  fst (Run WriteClusterConfigTask (demo.start [])) = Some DeleteBootstrapClusterTask /\
  deletions (trace (snd (Run DeleteBootstrapClusterTask
                           (snd (Run WriteClusterConfigTask (demo.start []))))))
    = [None] /\
  exists m',
    RunTask (2 + 0) WriteClusterConfigTask (demo.start []) =
    Some (Some (Errorf "WriteClusterConfig failed"),
          [WriteClusterConfigTask; DeleteBootstrapClusterTask], m').
Proof.
  destruct (write_config_always_reaches_cleanup (demo.start []))
    as (Hnext & _ & Hreport).
  split; [reflexivity|]. split; [reflexivity|]. split; [exact Hnext|].
  split; [reflexivity|].
  exact (Hreport (Errorf "WriteClusterConfig failed") 0 eq_refl eq_refl).
Defined.

End ScriptedFullDisk.
